(** * bot_helper: the address book and its birthday query

    A shallow embedding of [bot_helper.py]: the validated value types
    ([Name], [Phone], [Birthday]), [Record], [AddressBook] and
    [AddressBook.get_upcoming_birthdays], together with the parts of
    Python's [str] and [datetime] that this code calls. *)

From Stdlib Require Import ZArith NArith List Bool Lia String Ascii DecimalString.
Import ListNotations.
Local Open Scope Z_scope.

(* ================================================================== *)
(** ** Strings, exceptions and results *)

(** A Python [str] is a sequence of Unicode code points. *)
Definition char := N.
Definition str := list char.

(** The messages of the exceptions raised by the source (and by the
    [datetime] calls it makes); an f-string message keeps its argument. *)
Inductive message :=
| msg_invalid_date_format                (* "Invalid date format. Use DD.MM.YYYY" *)
| msg_invalid_month                      (* "Invalid month. Month must be between 1 and 12." *)
| msg_invalid_year (current_year : Z)    (* "Invalid year. Year must be between 1 and {current_year}." *)
| msg_year_2025                          (* "Year cannot be 2025 or more." *)
| msg_birthday_in_future                 (* "Birthday cannot be in the future." *)
| msg_invalid_date                       (* "Invalid date. Make sure the date is real." *)
| msg_phone_only_digits (provided : str) (* "Phone number must contain only digits. Provided: {phone}" *)
| msg_phone_10_digits (provided : str)   (* "Phone number must contain exactly 10 digits. Provided: {phone}" *)
| msg_phone_same_as_old                  (* "New phone number cannot be the same as the old one." *)
| msg_phone_not_found (phone : str)      (* "Phone {phone} not found." *)
| msg_record_not_found (name : str)      (* "Record with name '{name}' not found." *)
| msg_strptime_mismatch                  (* datetime: "time data ... does not match format ..." *)
| msg_strptime_unconverted               (* datetime: "unconverted data remains: ..." *)
| msg_year_out_of_range                  (* datetime: "year ... is out of range" *)
| msg_month_out_of_range                 (* datetime: "month must be in 1..12" *)
| msg_day_out_of_range                   (* datetime: "day is out of range for month" *)
| msg_date_overflow.                     (* datetime: "date value out of range" *)

Inductive exn :=
| ValueError (m : message)
| KeyError (m : message)
| OverflowError (m : message).

Inductive result (A : Type) :=
| Ok (a : A)
| Raise (e : exn).
Arguments Ok {A} a.
Arguments Raise {A} e.

Definition rbind {A B} (r : result A) (k : A -> result B) : result B :=
  match r with
  | Ok a => k a
  | Raise e => Raise e
  end.

Declare Scope res_scope.
Delimit Scope res_scope with res.
Notation "x <- c ;; k" := (rbind c (fun x => k))
  (at level 61, c at next level, right associativity) : res_scope.

(* ================================================================== *)
(** ** The parts of Python's [str] that the source calls *)

Module PyStr.
Local Open Scope N_scope.

(** A literal of ASCII characters as a [str]. *)
Definition of_string (s : string) : str :=
  map N_of_ascii (list_ascii_of_string s).

Fixpoint str_eqb (a b : str) : bool :=
  match a, b with
  | [], [] => true
  | x :: a', y :: b' => (x =? y) && str_eqb a' b'
  | _, _ => false
  end.

Definition in_range (lo hi c : N) : bool := (lo <=? c) && (c <=? hi).

(** [Py_UNICODE_ISSPACE]: the characters removed by [str.strip()]. *)
Definition isspace (c : char) : bool :=
  in_range 0x09 0x0D c || in_range 0x1C 0x20 c || (c =? 0x85) || (c =? 0xA0)
  || (c =? 0x1680) || in_range 0x2000 0x200A c || (c =? 0x2028) || (c =? 0x2029)
  || (c =? 0x202F) || (c =? 0x205F) || (c =? 0x3000).

Fixpoint lstrip (s : str) : str :=
  match s with
  | [] => []
  | c :: s' => if isspace c then lstrip s' else s
  end.

Definition rstrip (s : str) : str := rev (lstrip (rev s)).

(** [str.strip()] with no argument. *)
Definition strip (s : str) : str := rstrip (lstrip s).

(** First code points of the blocks of ten consecutive decimal digits
    (general category Nd, values 0 to 9 in order) of Unicode 14.0, the
    character database of CPython 3.11: all 66 of them, from ASCII
    U+0030 to the symbols for legacy computing at U+1FBF0; the
    mathematical digits U+1D7CE to U+1D7FF are five such blocks. *)
Definition decimal_blocks : list N :=
  [0x0030; 0x0660; 0x06F0; 0x07C0; 0x0966; 0x09E6; 0x0A66; 0x0AE6; 0x0B66;
   0x0BE6; 0x0C66; 0x0CE6; 0x0D66; 0x0DE6; 0x0E50; 0x0ED0; 0x0F20; 0x1040;
   0x1090; 0x17E0; 0x1810; 0x1946; 0x19D0; 0x1A80; 0x1A90; 0x1B50; 0x1BB0;
   0x1C40; 0x1C50; 0xA620; 0xA8D0; 0xA900; 0xA9D0; 0xA9F0; 0xAA50; 0xABF0;
   0xFF10; 0x104A0; 0x10D30; 0x11066; 0x110F0; 0x11136; 0x111D0; 0x112F0; 0x11450;
   0x114D0; 0x11650; 0x116C0; 0x11730; 0x118E0; 0x11950; 0x11C50; 0x11D50; 0x11DA0;
   0x16A60; 0x16AC0; 0x16B50; 0x1D7CE; 0x1D7D8; 0x1D7E2; 0x1D7EC; 0x1D7F6; 0x1E140;
   0x1E2F0; 0x1E950; 0x1FBF0].

Fixpoint block_value (blocks : list N) (c : char) : option N :=
  match blocks with
  | [] => None
  | b :: bs => if in_range b (b + 9) c then Some (c - b) else block_value bs c
  end.

(** [Py_UNICODE_TODECIMAL]: the value of a decimal digit. *)
Definition decimal_value (c : char) : option N := block_value decimal_blocks c.

(** [Py_UNICODE_ISDECIMAL]: what [\d] matches in a [str] pattern. *)
Definition isdecimal (c : char) : bool :=
  match decimal_value c with Some _ => true | None => false end.

(** The ranges of the characters that have a digit value and are not
    decimal digits (Numeric_Type=Digit) in Unicode 14.0: superscripts
    and subscripts, the Ethiopic digits, circled, parenthesized and
    dotted digits, dingbat digits, Kharoshthi and Brahmi digits and the
    like; 128 characters in all. *)
Definition other_digit_ranges : list (N * N) :=
  [(0x00B2, 0x00B3); (0x00B9, 0x00B9); (0x1369, 0x1371); (0x19DA, 0x19DA);
   (0x2070, 0x2070); (0x2074, 0x2079); (0x2080, 0x2089); (0x2460, 0x2468);
   (0x2474, 0x247C); (0x2488, 0x2490); (0x24EA, 0x24EA); (0x24F5, 0x24FD);
   (0x24FF, 0x24FF); (0x2776, 0x277E); (0x2780, 0x2788); (0x278A, 0x2792);
   (0x10A40, 0x10A43); (0x10E60, 0x10E68); (0x11052, 0x1105A); (0x1F100, 0x1F10A)].

Definition isdigit_not_decimal (c : char) : bool :=
  existsb (fun '(lo, hi) => in_range lo hi c) other_digit_ranges.

(** [Py_UNICODE_ISDIGIT] *)
Definition isdigit_char (c : char) : bool := isdecimal c || isdigit_not_decimal c.

(** [str.isdigit()]: all characters are digits and there is at least one. *)
Definition isdigit (s : str) : bool :=
  match s with
  | [] => false
  | _ => forallb isdigit_char s
  end.

(** [len(s)] *)
Definition len (s : str) : Z := Z.of_nat (List.length s).

(** [int(s)] on the groups that [strptime] extracts: surrounding
    whitespace is skipped, the rest must be decimal digits. *)
Fixpoint int_digits (acc : Z) (s : str) : result Z :=
  match s with
  | [] => Ok acc
  | c :: s' =>
      match decimal_value c with
      | Some v => int_digits (10 * acc + Z.of_N v)%Z s'
      | None => Raise (ValueError msg_strptime_mismatch)
      end
  end.

Definition int (s : str) : result Z :=
  match strip s with
  | [] => Raise (ValueError msg_strptime_mismatch)
  | t => int_digits 0 t
  end.

Definition ascii_digit (c : char) : bool := in_range 0x30 0x39 c.

(** The character of a digit value below ten. *)
Definition digit_char (v : Z) : char := 0x30 + Z.to_N v.

End PyStr.

(* ================================================================== *)
(** ** The calendar of Python's [datetime] *)

Module PyDatetime.

Definition MINYEAR : Z := 1.
Definition MAXYEAR : Z := 9999.
Definition MAXORDINAL : Z := 3652059.

Definition is_leap (year : Z) : bool :=
  (year mod 4 =? 0) && (negb (year mod 100 =? 0) || (year mod 400 =? 0)).

Definition days_before_year (year : Z) : Z :=
  let y := year - 1 in y * 365 + y / 4 - y / 100 + y / 400.

(** [_DAYS_IN_MONTH] *)
Definition DAYS_IN_MONTH (month : Z) : Z :=
  match month with
  | 1 => 31 | 2 => 28 | 3 => 31 | 4 => 30 | 5 => 31 | 6 => 30
  | 7 => 31 | 8 => 31 | 9 => 30 | 10 => 31 | 11 => 30 | 12 => 31
  | _ => -1
  end.

(** [_DAYS_BEFORE_MONTH] *)
Definition DAYS_BEFORE_MONTH (month : Z) : Z :=
  match month with
  | 1 => 0 | 2 => 31 | 3 => 59 | 4 => 90 | 5 => 120 | 6 => 151
  | 7 => 181 | 8 => 212 | 9 => 243 | 10 => 273 | 11 => 304 | 12 => 334
  | _ => -1
  end.

Definition days_in_month (year month : Z) : Z :=
  if (month =? 2) && is_leap year then 29 else DAYS_IN_MONTH month.

Definition days_before_month (year month : Z) : Z :=
  DAYS_BEFORE_MONTH month + (if (2 <? month) && is_leap year then 1 else 0).

Record date := mkdate { year : Z; month : Z; day : Z }.

(** [_check_date_fields], the validation of every constructor and of
    [replace]. *)
Definition check_date_fields (y m d : Z) : result date :=
  if negb ((MINYEAR <=? y) && (y <=? MAXYEAR)) then Raise (ValueError msg_year_out_of_range)
  else if negb ((1 <=? m) && (m <=? 12)) then Raise (ValueError msg_month_out_of_range)
  else if negb ((1 <=? d) && (d <=? days_in_month y m)) then Raise (ValueError msg_day_out_of_range)
  else Ok (mkdate y m d).

Definition valid_date (d : date) : Prop :=
  MINYEAR <= year d <= MAXYEAR /\ 1 <= month d <= 12 /\
  1 <= day d <= days_in_month (year d) (month d).

(** [date.toordinal]: [_ymd2ord]. *)
Definition toordinal (d : date) : Z :=
  days_before_year (year d) + days_before_month (year d) (month d) + day d.

Definition DI400Y : Z := 146097.
Definition DI100Y : Z := 36524.
Definition DI4Y : Z := 1461.

(** [date.fromordinal]: [_ord2ymd]. *)
Definition fromordinal (n : Z) : date :=
  let n := n - 1 in
  let n400 := n / DI400Y in
  let n := n mod DI400Y in
  let year := n400 * 400 + 1 in
  let n100 := n / DI100Y in
  let n := n mod DI100Y in
  let n4 := n / DI4Y in
  let n := n mod DI4Y in
  let n1 := n / 365 in
  let n := n mod 365 in
  let year := year + (n100 * 100 + n4 * 4 + n1) in
  if (n1 =? 4) || (n100 =? 4) then mkdate (year - 1) 12 31
  else
    let leapyear := (n1 =? 3) && (negb (n4 =? 24) || (n100 =? 3)) in
    let month := Z.shiftr (n + 50) 5 in
    let preceding := DAYS_BEFORE_MONTH month + (if (2 <? month) && leapyear then 1 else 0) in
    let '(month, preceding) :=
      if n <? preceding
      then (month - 1,
            preceding - (DAYS_IN_MONTH (month - 1)
                         + (if (month - 1 =? 2) && leapyear then 1 else 0)))
      else (month, preceding) in
    mkdate year month (n - preceding + 1).

(** [date.weekday]: Monday is 0, Sunday is 6. *)
Definition weekday (d : date) : Z := (toordinal d + 6) mod 7.

(** The rich comparisons of [date] compare (year, month, day). *)
Definition date_cmp (a b : date) : comparison :=
  match year a ?= year b with
  | Eq => match month a ?= month b with
          | Eq => day a ?= day b
          | c => c
          end
  | c => c
  end.

Definition date_lt (a b : date) : bool :=
  match date_cmp a b with Lt => true | _ => false end.
Definition date_le (a b : date) : bool :=
  match date_cmp a b with Gt => false | _ => true end.

(** [date + timedelta(days=k)]. *)
Definition date_add_days (d : date) (k : Z) : result date :=
  let o := toordinal d + k in
  if (0 <? o) && (o <=? MAXORDINAL) then Ok (fromordinal o)
  else Raise (OverflowError msg_date_overflow).

(** *** [datetime]: a date and a time of day *)

Record datetime := mkdatetime {
  dt_date : date;
  hour : Z; minute : Z; second : Z; microsecond : Z
}.

(** [datetime.date()] *)
Definition date_of (dt : datetime) : date := dt_date dt.

Definition time_cmp (a b : datetime) : comparison :=
  match hour a ?= hour b with
  | Eq => match minute a ?= minute b with
          | Eq => match second a ?= second b with
                  | Eq => microsecond a ?= microsecond b
                  | c => c
                  end
          | c => c
          end
  | c => c
  end.

(** The rich comparisons of naive [datetime] values compare
    (year, month, day, hour, minute, second, microsecond). *)
Definition datetime_cmp (a b : datetime) : comparison :=
  match date_cmp (dt_date a) (dt_date b) with
  | Eq => time_cmp a b
  | c => c
  end.

Definition datetime_gt (a b : datetime) : bool :=
  match datetime_cmp a b with Gt => true | _ => false end.

(** [datetime.replace(year=y)] *)
Definition replace_year (dt : datetime) (y : Z) : result datetime :=
  (d <- check_date_fields y (month (dt_date dt)) (day (dt_date dt)) ;;
   Ok (mkdatetime d (hour dt) (minute dt) (second dt) (microsecond dt)))%res.

(** [datetime.weekday()] *)
Definition dt_weekday (dt : datetime) : Z := weekday (dt_date dt).

(** [datetime + timedelta(days=k)]: the time of day is kept. *)
Definition datetime_add_days (dt : datetime) (k : Z) : result datetime :=
  (d <- date_add_days (dt_date dt) k ;;
   Ok (mkdatetime d (hour dt) (minute dt) (second dt) (microsecond dt)))%res.

(** *** [datetime.strptime(s, "%d.%m.%Y")]

    [_strptime] compiles the format to the regular expression
    [(?P<d>3[0-1]|[1-2]\d|0[1-9]|[1-9]| [1-9])\.(?P<m>1[0-2]|0[1-9]|[1-9])\.(?P<Y>\d\d\d\d)]
    and matches it at the start of the string.  Each group below lists its
    alternatives in the order the backtracking matcher tries them, as
    (matched text, remaining text). *)

Definition chr (a : ascii) : char := N_of_ascii a.

Definition is_char (a : ascii) (c : char) : bool := N.eqb c (chr a).
Definition in_chars (lo hi : ascii) (c : char) : bool :=
  PyStr.in_range (chr lo) (chr hi) c.

Definition alts_d (s : str) : list (str * str) :=
  match s with
  | c0 :: c1 :: rest =>
      (if is_char "3" c0 && in_chars "0" "1" c1 then [([c0; c1], rest)] else [])
      ++ (if in_chars "1" "2" c0 && PyStr.isdecimal c1 then [([c0; c1], rest)] else [])
      ++ (if is_char "0" c0 && in_chars "1" "9" c1 then [([c0; c1], rest)] else [])
      ++ (if in_chars "1" "9" c0 then [([c0], c1 :: rest)] else [])
      ++ (if is_char " " c0 && in_chars "1" "9" c1 then [([c0; c1], rest)] else [])
  | [c0] => if in_chars "1" "9" c0 then [([c0], [])] else []
  | [] => []
  end.

Definition alts_m (s : str) : list (str * str) :=
  match s with
  | c0 :: c1 :: rest =>
      (if is_char "1" c0 && in_chars "0" "2" c1 then [([c0; c1], rest)] else [])
      ++ (if is_char "0" c0 && in_chars "1" "9" c1 then [([c0; c1], rest)] else [])
      ++ (if in_chars "1" "9" c0 then [([c0], c1 :: rest)] else [])
  | [c0] => if in_chars "1" "9" c0 then [([c0], [])] else []
  | [] => []
  end.

Definition alts_Y (s : str) : list (str * str) :=
  match s with
  | y1 :: y2 :: y3 :: y4 :: rest =>
      if PyStr.isdecimal y1 && PyStr.isdecimal y2 && PyStr.isdecimal y3 && PyStr.isdecimal y4
      then [([y1; y2; y3; y4], rest)] else []
  | _ => []
  end.

(** [\.] *)
Definition lit_dot (s : str) : list str :=
  match s with
  | c :: rest => if is_char "." c then [rest] else []
  | [] => []
  end.

(** All matches of the whole expression in backtracking order; the
    matcher returns the first. *)
Definition format_regex_matches (s : str) : list (str * str * str * str) :=
  flat_map (fun '(d, r1) =>
    flat_map (fun r2 =>
      flat_map (fun '(m, r3) =>
        flat_map (fun r4 =>
          map (fun '(y, rest) => (d, m, y, rest)) (alts_Y r4))
          (lit_dot r3))
        (alts_m r2))
      (lit_dot r1))
    (alts_d s).

Definition strptime (data_string : str) : result datetime :=
  match format_regex_matches data_string with
  | [] => Raise (ValueError msg_strptime_mismatch)
  | (d, m, y, rest) :: _ =>
      match rest with
      | _ :: _ => Raise (ValueError msg_strptime_unconverted)
      | [] =>
          (year <- PyStr.int y ;;
           month <- PyStr.int m ;;
           day <- PyStr.int d ;;
           date <- check_date_fields year month day ;;
           Ok (mkdatetime date 0 0 0 0))%res
      end
  end.

(** *** [datetime.strftime("%d.%m.%Y")]: day and month zero-padded to two
    digits, the year to four (a year below 1000 is padded, as CPython
    does from 3.13 on every platform). *)
Definition two_digits (n : Z) : str :=
  [PyStr.digit_char (n / 10 mod 10); PyStr.digit_char (n mod 10)].

Definition four_digits (n : Z) : str :=
  [PyStr.digit_char (n / 1000 mod 10); PyStr.digit_char (n / 100 mod 10);
   PyStr.digit_char (n / 10 mod 10); PyStr.digit_char (n mod 10)].

Definition strftime (dt : datetime) : str :=
  two_digits (day (dt_date dt)) ++ [chr "."]
  ++ two_digits (month (dt_date dt)) ++ [chr "."]
  ++ four_digits (year (dt_date dt)).

End PyDatetime.

(* ================================================================== *)
(** ** Methods as state transformers that may raise *)

(** A method of an object of state [S] returning [A]: it ends normally
    or raises, and in both cases leaves an object state behind. *)
Definition M (S A : Type) : Type := S -> result A * S.

Definition ret {S A} (a : A) : M S A := fun s => (Ok a, s).
Definition raise {S A} (e : exn) : M S A := fun s => (Raise e, s).
Definition bind {S A B} (c : M S A) (k : A -> M S B) : M S B :=
  fun s => match c s with
           | (Ok a, s') => k a s'
           | (Raise e, s') => (Raise e, s')
           end.
Definition get {S} : M S S := fun s => (Ok s, s).
Definition put {S} (s : S) : M S unit := fun _ => (Ok tt, s).
(** A computation that touches no object state. *)
Definition lift {S A} (r : result A) : M S A := fun s => (r, s).

Declare Scope method_scope.
Delimit Scope method_scope with method.
Notation "x <- c ;; k" := (bind c (fun x => k))
  (at level 61, c at next level, right associativity) : method_scope.

(** [for x in xs: acc = body(acc, x)], stopping at the first exception. *)
Fixpoint for_each {S A X} (xs : list X) (body : A -> X -> M S A) (acc : A) : M S A :=
  match xs with
  | [] => ret acc
  | x :: xs' => (acc' <- body acc x ;; for_each xs' body acc')%method
  end.

(* ================================================================== *)
(** ** The value types: [Field], [Name], [Birthday], [Phone] *)

Import PyDatetime.

(** [class Field]: the only attribute is [value]. *)
Record Field := mkField { value : str }.

(** [Name], [Birthday] and [Phone] subclass [Field] and add no attribute. *)
Definition Name := Field.
Definition Birthday := Field.
Definition Phone := Field.

(** [Name.__init__] *)
Definition Name_init (value : str) : Name := mkField (PyStr.strip value).

(** [re.match(r"^\d{2}\.\d{2}\.\d{4}$", value)]: two, two and four decimal
    digits separated by dots; [$] also matches before one final newline. *)
Definition date_pattern_match (v : str) : bool :=
  let digits := forallb PyStr.isdecimal in
  let shape d1 d2 p1 m1 m2 p2 y1 y2 y3 y4 :=
    digits [d1; d2] && is_char "." p1 && digits [m1; m2] && is_char "." p2
    && digits [y1; y2; y3; y4] in
  match v with
  | [d1; d2; p1; m1; m2; p2; y1; y2; y3; y4] =>
      shape d1 d2 p1 m1 m2 p2 y1 y2 y3 y4
  | [d1; d2; p1; m1; m2; p2; y1; y2; y3; y4; nl] =>
      shape d1 d2 p1 m1 m2 p2 y1 y2 y3 y4 && N.eqb nl 10
  | _ => false
  end.

(** [Birthday.__init__].  The source reads the clock twice:
    [now_year] is the value of [datetime.now()] whose year becomes
    [current_year], [now_cmp] the one the parsed date is compared with. *)
Definition Birthday_init (now_year now_cmp : datetime) (value : str) : result Birthday :=
  if negb (date_pattern_match value)
  then Raise (ValueError msg_invalid_date_format)
  else
    let try_block : result Birthday :=
      (date_object <- strptime value ;;
       if negb ((1 <=? month (dt_date date_object)) && (month (dt_date date_object) <=? 12))
       then Raise (ValueError msg_invalid_month)
       else
         let current_year := year (dt_date now_year) in
         if (year (dt_date date_object) >? current_year) || (year (dt_date date_object) <=? 0)
         then Raise (ValueError (msg_invalid_year current_year))
         else if year (dt_date date_object) >=? 2025
         then Raise (ValueError msg_year_2025)
         else if datetime_gt date_object now_cmp
         then Raise (ValueError msg_birthday_in_future)
         else Ok (mkField value))%res in
    match try_block with
    | Raise (ValueError _) => Raise (ValueError msg_invalid_date)
    | r => r
    end.

(** [Phone._validate_phone] *)
Definition validate_phone (phone : str) : result unit :=
  if negb (PyStr.isdigit phone)
  then Raise (ValueError (msg_phone_only_digits phone))
  else if negb (PyStr.len phone =? 10)
  then Raise (ValueError (msg_phone_10_digits phone))
  else Ok tt.

(** [Phone.__init__] *)
Definition Phone_init (value : str) : result Phone :=
  (_ <- validate_phone value ;; Ok (mkField value))%res.

(* ================================================================== *)
(** ** [class Record] *)

Record RecordT := mkRecord {
  name : Name;
  phones : list Phone;
  birthday : option Birthday
}.

(** [Record.__init__] *)
Definition Record_init (name : str) : RecordT :=
  mkRecord (Name_init name) [] None.

Definition set_phones (ps : list Phone) (r : RecordT) : RecordT :=
  mkRecord (name r) ps (birthday r).
Definition set_birthday (b : option Birthday) (r : RecordT) : RecordT :=
  mkRecord (name r) (phones r) b.

(** [Record.add_phone]: the argument [Phone(phone)] is evaluated before
    [append] is called. *)
Definition add_phone (phone : str) : M RecordT unit :=
  (p <- lift (Phone_init phone) ;;
   self <- get ;;
   put (set_phones (phones self ++ [p]) self))%method.

(** The index of the first phone whose value is [phone]: the [for] loop
    with [break] of [remove_phone] and [edit_phone]. *)
Fixpoint index_of_phone (phone : str) (ps : list Phone) : option nat :=
  match ps with
  | [] => None
  | p :: ps' =>
      if PyStr.str_eqb (value p) phone then Some O
      else option_map S (index_of_phone phone ps')
  end.

(** [phone_to_edit.value = new_phone] on the phone at index [i]. *)
Fixpoint set_value_at (i : nat) (v : str) (ps : list Phone) : list Phone :=
  match ps, i with
  | [], _ => []
  | _ :: ps', O => mkField v :: ps'
  | p :: ps', S i' => p :: set_value_at i' v ps'
  end.

(** [Record.edit_phone] *)
Definition edit_phone (old_phone new_phone : str) : M RecordT unit :=
  (self <- get ;;
   match index_of_phone old_phone (phones self) with
   | Some i =>
       if PyStr.str_eqb old_phone new_phone
       then raise (ValueError msg_phone_same_as_old)
       else if negb (PyStr.isdigit new_phone)
       then raise (ValueError (msg_phone_only_digits new_phone))
       else if negb (PyStr.len new_phone =? 10)
       then raise (ValueError (msg_phone_10_digits new_phone))
       else put (set_phones (set_value_at i new_phone (phones self)) self)
   | None => raise (ValueError (msg_phone_not_found old_phone))
   end)%method.

(** [Record.add_birthday] *)
Definition add_birthday (now_year now_cmp : datetime) (birthday : str) : M RecordT unit :=
  (b <- lift (Birthday_init now_year now_cmp birthday) ;;
   self <- get ;;
   put (set_birthday (Some b) self))%method.

(* ================================================================== *)
(** ** [class AddressBook(UserDict)] *)

(** A Python [dict] from [str] to records: keys are unique and iteration
    follows insertion order. *)
Definition dict := list (str * RecordT).

(** [d.get(k, None)] *)
Fixpoint dict_get (k : str) (d : dict) : option RecordT :=
  match d with
  | [] => None
  | (k', v) :: d' => if PyStr.str_eqb k' k then Some v else dict_get k d'
  end.

(** [k in d] *)
Definition dict_contains (k : str) (d : dict) : bool :=
  match dict_get k d with Some _ => true | None => false end.

(** [d[k] = v]: an existing key keeps its place, a new key goes last. *)
Fixpoint dict_set (k : str) (v : RecordT) (d : dict) : dict :=
  match d with
  | [] => [(k, v)]
  | (k', v') :: d' =>
      if PyStr.str_eqb k' k then (k', v) :: d' else (k', v') :: dict_set k v d'
  end.

(** [del d[k]] for a key that is present. *)
Fixpoint dict_del (k : str) (d : dict) : dict :=
  match d with
  | [] => []
  | (k', v') :: d' =>
      if PyStr.str_eqb k' k then d' else (k', v') :: dict_del k d'
  end.

Record AddressBook := mkBook { data : dict }.

(** [AddressBook()] *)
Definition empty_book : AddressBook := mkBook [].

(** [AddressBook.add_record] *)
Definition add_record (record : RecordT) : M AddressBook unit :=
  (self <- get ;;
   put (mkBook (dict_set (value (name record)) record (data self))))%method.

(** [AddressBook.find] *)
Definition find (name : str) : M AddressBook (option RecordT) :=
  (self <- get ;; ret (dict_get name (data self)))%method.

(** [AddressBook.delete] *)
Definition delete (name : str) : M AddressBook unit :=
  (self <- get ;;
   if dict_contains name (data self)
   then put (mkBook (dict_del name (data self)))
   else raise (KeyError (msg_record_not_found name)))%method.

(** One element of the list that [get_upcoming_birthdays] returns:
    [{"name": ..., "birthday": ...}]. *)
Record upcoming := mkUpcoming { upcoming_name : str; upcoming_birthday : str }.

(** The body of the loop of [get_upcoming_birthdays] for one item of
    [self.data.items()]. *)
Definition upcoming_body (today next_week : date)
    (upcoming_birthdays : list upcoming) (item : str * RecordT)
    : result (list upcoming) :=
  let '(name, record) := item in
  match birthday record with
  | Some b =>
      (birthday <- strptime (value b) ;;
       birthday_this_year <- replace_year birthday (year today) ;;
       birthday_this_year <-
         (if date_lt (date_of birthday_this_year) today
          then replace_year birthday_this_year (year today + 1)
          else Ok birthday_this_year) ;;
       if date_le today (date_of birthday_this_year)
          && date_le (date_of birthday_this_year) next_week
       then
         birthday_this_year <-
           (if dt_weekday birthday_this_year =? 5
            then datetime_add_days birthday_this_year 2
            else if dt_weekday birthday_this_year =? 6
            then datetime_add_days birthday_this_year 1
            else Ok birthday_this_year) ;;
         Ok (upcoming_birthdays ++ [mkUpcoming name (strftime birthday_this_year)])
       else Ok upcoming_birthdays)%res
  | None => Ok upcoming_birthdays
  end.

(** [AddressBook.get_upcoming_birthdays]; [today] is the value of
    [datetime.today().date()]. *)
Definition get_upcoming_birthdays (today : date) : M AddressBook (list upcoming) :=
  (next_week <- lift (date_add_days today 7) ;;
   self <- get ;;
   for_each (data self)
     (fun upcoming_birthdays item =>
        lift (upcoming_body today next_week upcoming_birthdays item))
     [])%method.

(* ================================================================== *)
(** ** Notions used to state the properties *)

(** The error kinds of the specification, read off the message of the
    exception that the source raises. *)
Inductive error_kind := InvalidFormat | InvalidDate | InvalidArgument | NotFound.

Definition kind_of_message (m : message) : option error_kind :=
  match m with
  | msg_invalid_date_format => Some InvalidFormat
  | msg_invalid_month | msg_invalid_year _ | msg_year_2025
  | msg_birthday_in_future | msg_invalid_date => Some InvalidDate
  | msg_phone_only_digits _ | msg_phone_10_digits _ => Some InvalidFormat
  | msg_phone_same_as_old => Some InvalidArgument
  | msg_phone_not_found _ | msg_record_not_found _ => Some NotFound
  | _ => None
  end.

Definition kind_of (e : exn) : option error_kind :=
  match e with
  | ValueError m | KeyError m => kind_of_message m
  | OverflowError _ => None
  end.

(** A string with no whitespace at either end. *)
Definition trimmed (s : str) : Prop :=
  (forall c, hd_error s = Some c -> PyStr.isspace c = false) /\
  (forall c, hd_error (rev s) = Some c -> PyStr.isspace c = false).

(** Whether some stored phone has the value [phone]. *)
Definition has_phone (phone : str) (r : RecordT) : bool :=
  existsb (fun p => PyStr.str_eqb (value p) phone) (phones r).

(** The date that a record's stored birthday text denotes. *)
Definition parsed_birthday (r : RecordT) : option date :=
  match birthday r with
  | Some b => match strptime (value b) with
              | Ok dt => Some (dt_date dt)
              | Raise _ => None
              end
  | None => None
  end.

(** This year's occurrence of the birthday [bd] (month and day kept, year
    of [today]), or next year's when this year's is before [today]. *)
Definition occurrence (today bd : date) : date :=
  if (month bd <? month today)
     || ((month bd =? month today) && (day bd <? day today))
  then mkdate (year today + 1) (month bd) (day bd)
  else mkdate (year today) (month bd) (day bd).

(** Days from [today] to [d]. *)
Definition days_until (today d : date) : Z := toordinal d - toordinal today.

(** The record of [item] has a birthday whose occurrence is at most [n]
    days after [today], and not before it. *)
Definition selected_within (n : Z) (today : date) (item : str * RecordT) : bool :=
  match parsed_birthday (snd item) with
  | Some bd =>
      let k := days_until today (occurrence today bd) in
      (0 <=? k) && (k <=? n)
  | None => false
  end.

(** No stored birthday is a 29 February, and each one parses. *)
Definition no_leap_day (item : str * RecordT) : Prop :=
  match birthday (snd item) with
  | Some b => exists bd, parsed_birthday (snd item) = Some bd
                         /\ ~ (month bd = 2 /\ day bd = 29)
  | None => True
  end.

(** What the query reports for a selected item: its key, and the text of
    the occurrence moved to the Monday after a weekend. *)
Definition reported (today : date) (item : str * RecordT) (e : upcoming) : Prop :=
  upcoming_name e = fst item /\
  exists bd rd,
    parsed_birthday (snd item) = Some bd /\
    valid_date rd /\
    upcoming_birthday e = strftime (mkdatetime rd 0 0 0 0) /\
    let occ := occurrence today bd in
    (weekday occ = 5 -> toordinal rd = toordinal occ + 2 /\ weekday rd = 0) /\
    (weekday occ = 6 -> toordinal rd = toordinal occ + 1 /\ weekday rd = 0) /\
    (weekday occ <> 5 -> weekday occ <> 6 -> rd = occ).

(** A session's operations on the address book. *)
Inductive operation :=
| op_add_record (record : RecordT)
| op_find (name : str)
| op_delete (name : str).

(** The book after one operation; an exception of [delete] is caught by
    the caller and leaves the book as [delete] left it. *)
Definition run_operation (book : AddressBook) (o : operation) : AddressBook :=
  match o with
  | op_add_record r => snd (add_record r book)
  | op_find n => snd (find n book)
  | op_delete n => snd (delete n book)
  end.

Definition run_operations (ops : list operation) (book : AddressBook) : AddressBook :=
  fold_left run_operation ops book.

(** Every key is the name value of the record stored under it. *)
Definition keys_are_names (book : AddressBook) : Prop :=
  forall k r, In (k, r) (data book) -> k = value (name r).

(** The record of an added operation got its name from [Name.__init__]. *)
Definition name_constructed (o : operation) : Prop :=
  match o with
  | op_add_record r => exists raw, name r = Name_init raw
  | _ => True
  end.

(** *** Checking one 400-year cycle of the calendar by evaluation *)

Definition valid_dateb (d : date) : bool :=
  (MINYEAR <=? year d) && (year d <=? MAXYEAR) && (1 <=? month d) && (month d <=? 12)
  && (1 <=? day d) && (day d <=? days_in_month (year d) (month d)).

Definition cycle_ok (n : Z) : bool :=
  let d := fromordinal n in
  valid_dateb d && (toordinal d =? n).

Fixpoint all_upto (f : Z -> bool) (k : nat) (n : Z) : bool :=
  match k with
  | O => true
  | S k' => f n && all_upto f k' (n + 1)
  end.

(** The same day [400 * q] years later. *)
Definition shift_years (q : Z) (d : date) : date :=
  mkdate (year d + 400 * q) (month d) (day d).

(** *** Sample data *)

(** A clock reading: Wednesday 18 June 2025, nine o'clock. *)
Definition sample_clock : datetime := mkdatetime (mkdate 2025 6 18) 9 0 0 0.

(** [Record(n)] after [add_birthday(b)] at [sample_clock]. *)
Definition contact_born (n b : string) : RecordT :=
  snd (add_birthday sample_clock sample_clock (PyStr.of_string b)
         (Record_init (PyStr.of_string n))).

(** The book after [add_record] of each of [rs], in order. *)
Definition book_of (rs : list RecordT) : AddressBook :=
  fold_left (fun book r => snd (add_record r book)) rs empty_book.

Definition june_book : AddressBook :=
  book_of [contact_born "Ann" "20.06.1990"; contact_born "Bob" "25.06.1990";
           contact_born "Cy" "21.06.1990"; contact_born "Di" "26.06.1990";
           contact_born "Ed" "22.06.1990"].

Definition leap_book : AddressBook :=
  book_of [contact_born "Ann" "20.06.1990"; contact_born "Lea" "29.02.2000"].

(** Case analysis on a month number between 1 and 12. *)
Ltac month_cases m H :=
  assert (m = 1 \/ m = 2 \/ m = 3 \/ m = 4 \/ m = 5 \/ m = 6 \/ m = 7 \/ m = 8
          \/ m = 9 \/ m = 10 \/ m = 11 \/ m = 12) as H by lia;
  repeat (destruct H as [H | H]); subst m.

(* ================================================================== *)
(** ** The other methods of [Record] *)

(** The list without its element at index [i]. *)
Fixpoint remove_at (i : nat) (ps : list Phone) : list Phone :=
  match ps, i with
  | [], _ => []
  | _ :: ps', O => ps'
  | p :: ps', S i' => p :: remove_at i' ps'
  end.

(** [Record.remove_phone]: [self.phones.remove(phone_to_remove)] removes
    the object that the loop found, the first one with that value. *)
Definition remove_phone (phone : str) : M RecordT unit :=
  (self <- get ;;
   match index_of_phone phone (phones self) with
   | Some i => put (set_phones (remove_at i (phones self)) self)
   | None => raise (ValueError (msg_phone_not_found phone))
   end)%method.

(** [Record.find_phone] *)
Definition find_phone (phone : str) : M RecordT (option Phone) :=
  (self <- get ;;
   ret (List.find (fun p => PyStr.str_eqb (value p) phone) (phones self)))%method.

(** Keys are unique, as in every Python [dict]. *)
Definition unique_keys (book : AddressBook) : Prop :=
  NoDup (map fst (data book)).

(** The keys of the book in iteration order. *)
Definition keys (book : AddressBook) : list str := map fst (data book).
(** Case analysis on a digit value, and on a day of the month. *)
Ltac digit_cases v H :=
  assert (v = 0 \/ v = 1 \/ v = 2 \/ v = 3 \/ v = 4 \/ v = 5 \/ v = 6 \/ v = 7
          \/ v = 8 \/ v = 9) as H by lia;
  repeat (destruct H as [H | H]); subst v.

Ltac day_cases d H :=
  assert (d = 1 \/ d = 2 \/ d = 3 \/ d = 4 \/ d = 5 \/ d = 6 \/ d = 7 \/ d = 8
          \/ d = 9 \/ d = 10 \/ d = 11 \/ d = 12 \/ d = 13 \/ d = 14 \/ d = 15
          \/ d = 16 \/ d = 17 \/ d = 18 \/ d = 19 \/ d = 20 \/ d = 21 \/ d = 22
          \/ d = 23 \/ d = 24 \/ d = 25 \/ d = 26 \/ d = 27 \/ d = 28 \/ d = 29
          \/ d = 30 \/ d = 31) as H by lia;
  repeat (destruct H as [H | H]); subst d.

(* ================================================================== *)
(** ** [ConsoleView], [input_error] and the command handlers *)

(** The attribute [name] of a record, for places where a variable called
    [name] is in scope. *)
Abbreviation record_name := name (only parsing).

(** [sep.join(parts)] *)
Fixpoint join (sep : str) (parts : list str) : str :=
  match parts with
  | [] => []
  | [p] => p
  | p :: ps => p ++ sep ++ join sep ps
  end.

(** [str(n)] of an integer. *)
Definition str_of_int (n : Z) : str :=
  PyStr.of_string (NilZero.string_of_int (Z.to_int n)).

(** The messages of the [ValueError]s that the handlers raise themselves
    or by unpacking [args]. *)
Inductive handler_message :=
| msg_provide_name_and_phone     (* "Please provide both name and phone number." *)
| msg_provide_name_and_birthday  (* "Please provide both name and birthday." *)
| msg_unpack (expected got : nat). (* "not enough values to unpack ..." or
                                      "too many values to unpack ..." *)

(** What a handler can raise: an exception of the classes above, a
    [ValueError] of its own, an [IndexError] of [args[0]], or the
    [AttributeError] of a method call on [None]. *)
Inductive exception :=
| from_core (e : exn)
| HandlerValueError (m : handler_message)
| IndexError
| AttributeError (attribute : string).

Inductive outcome (A : Type) :=
| Done (a : A)
| Threw (e : exception).
Arguments Done {A} a.
Arguments Threw {A} e.

(** What a handler works on: the book, and the texts printed so far,
    one per call of [print]. *)
Record session := mkSession { session_book : AddressBook; printed : list str }.

(** A handler: it ends normally or raises, and leaves a session behind. *)
Definition Handler (A : Type) : Type := session -> outcome A * session.

Definition hret {A} (a : A) : Handler A := fun s => (Done a, s).
Definition throw {A} (e : exception) : Handler A := fun s => (Threw e, s).
Definition hbind {A B} (c : Handler A) (k : A -> Handler B) : Handler B :=
  fun s => match c s with
           | (Done a, s') => k a s'
           | (Threw e, s') => (Threw e, s')
           end.

Declare Scope handler_scope.
Delimit Scope handler_scope with handler.
Notation "x <- c ;; k" := (hbind c (fun x => k))
  (at level 61, c at next level, right associativity) : handler_scope.

(** A method call on the book. *)
Definition on_book {A} (m : M AddressBook A) : Handler A :=
  fun s => match m (session_book s) with
           | (Ok a, book') => (Done a, mkSession book' (printed s))
           | (Raise e, book') => (Threw (from_core e), mkSession book' (printed s))
           end.

(** A method call through the handler's variable [record].  The variable
    holds [None] or a record object that is stored in the book; a method
    that changes the object changes it in the book.  Here the variable
    is the key of that record, and the changed record is put back under
    the key, in its place. *)
Definition on_record {A} (attribute : string) (record : option str)
    (m : M RecordT A) : Handler A :=
  fun s =>
    match record with
    | Some key =>
        match dict_get key (data (session_book s)) with
        | Some r =>
            let '(res, r') := m r in
            let s' := mkSession (mkBook (dict_set key r' (data (session_book s))))
                                (printed s) in
            match res with
            | Ok a => (Done a, s')
            | Raise e => (Threw (from_core e), s')
            end
        | None => (Threw (AttributeError attribute), s)
        end
    | None => (Threw (AttributeError attribute), s)
    end.

(** [print(text)] *)
Definition print (text : str) : Handler unit :=
  fun s => (Done tt, mkSession (session_book s) (printed s ++ [text])).

(** [ConsoleView.show_message] *)
Definition show_message (message : str) : Handler unit := print message.

(** One line of [show_upcoming_birthdays]:
    [f"{name} - {birthday.strftime('%d.%m.%Y')} (in {days_left} days)"]. *)
Definition upcoming_line (name : str) (birthday : date) (days_left : Z) : str :=
  name ++ PyStr.of_string " - "
  ++ strftime (mkdatetime birthday 0 0 0 0)
  ++ PyStr.of_string " (in " ++ str_of_int days_left
  ++ PyStr.of_string " days)".

(** The lines of [show_upcoming_birthdays] after the heading;
    [today_at i] is the value of [datetime.today().date()] in turn [i] of
    the loop. *)
Fixpoint upcoming_lines (today_at : nat -> date) (i : nat)
    (birthdays : list upcoming) : result (list str) :=
  match birthdays with
  | [] => Ok []
  | birthday_info :: rest =>
      (let name := upcoming_name birthday_info in
       dt <- strptime (upcoming_birthday birthday_info) ;;
       let birthday := date_of dt in
       let days_left := toordinal birthday - toordinal (today_at i) in
       lines <- upcoming_lines today_at (S i) rest ;;
       Ok (upcoming_line name birthday days_left :: lines))%res
  end.

(** [ConsoleView.show_upcoming_birthdays]: after the message for an empty
    list the method goes on. *)
Definition show_upcoming_birthdays (today_at : nat -> date)
    (birthdays : list upcoming) : Handler unit :=
  (_ <- match birthdays with
        | [] => print (PyStr.of_string "No upcoming birthdays in the next 7 days.")
        | _ => hret tt
        end ;;
   match upcoming_lines today_at 0 birthdays with
   | Ok lines =>
       print (join [10%N] (PyStr.of_string "Upcoming Birthdays:" :: lines))
   | Raise e => throw (from_core e)
   end)%handler.

(** What a decorated handler returns. *)
Inductive returned :=
| returned_None                      (* the handler ended *)
| returned_error (e : exception)     (* f"Error: {str(e)}" *)
| returned_enter_argument            (* "Enter the argument for the command" *)
| returned_no_element.               (* "No element with this key" *)

(** [input_error]: [ValueError], [IndexError] and [KeyError] become
    return values; any other exception goes on to the caller. *)
Definition input_error (func : Handler unit) : Handler returned :=
  fun s =>
    match func s with
    | (Done tt, s') => (Done returned_None, s')
    | (Threw e, s') =>
        match e with
        | from_core (ValueError _) | HandlerValueError _ => (Done (returned_error e), s')
        | IndexError => (Done returned_enter_argument, s')
        | from_core (KeyError _) => (Done returned_no_element, s')
        | _ => (Threw e, s')
        end
    end.

Definition contact_not_found (name : str) : str :=
  PyStr.of_string "Contact " ++ name ++ PyStr.of_string " not found.".

(** The handlers, before decoration. *)
Module Handlers.

Definition add_contact (args : list str) : Handler unit :=
  if Z.of_nat (List.length args) <? 2
  then throw (HandlerValueError msg_provide_name_and_phone)
  else
    match args with
    | name :: phone :: _ =>
        (found <- on_book (find name) ;;
         record <-
           match found with
           | None =>
               let record := Record_init name in
               _ <- on_book (add_record record) ;;
               _ <- show_message (PyStr.of_string "Contact added.") ;;
               hret (Some (value (record_name record)))
           | Some _ => hret (Some name)
           end ;;
         match phone with
         | [] => hret tt
         | _ =>
             _ <- on_record "add_phone" record (add_phone phone) ;;
             show_message (PyStr.of_string "Contact updated.")
         end)%handler
    | _ => throw (HandlerValueError msg_provide_name_and_phone)
    end.

Definition change_contact (args : list str) : Handler unit :=
  match args with
  | [name; old_phone; new_phone] =>
      (found <- on_book (find name) ;;
       _ <- match found with
            | None => show_message (contact_not_found name)
            | Some _ => hret tt
            end ;;
       _ <- on_record "edit_phone" (option_map (fun _ => name) found)
              (edit_phone old_phone new_phone) ;;
       show_message (PyStr.of_string "Contact changed"))%handler
  | _ => throw (HandlerValueError (msg_unpack 3 (List.length args)))
  end.

Definition show_phone (args : list str) : Handler unit :=
  match args with
  | name :: _ =>
      (found <- on_book (find name) ;;
       _ <- match found with
            | None => show_message (contact_not_found name)
            | Some _ => hret tt
            end ;;
       phones <- on_record "phones" (option_map (fun _ => name) found)
                   (fun record =>
                      (Ok (join (PyStr.of_string ", ") (map value (phones record))),
                       record)) ;;
       show_message (PyStr.of_string "Phones for " ++ name ++ PyStr.of_string ": "
                     ++ phones))%handler
  | [] => throw IndexError
  end.

Definition add_birthday (now_year now_cmp : datetime) (args : list str) : Handler unit :=
  if Z.of_nat (List.length args) <? 2
  then throw (HandlerValueError msg_provide_name_and_birthday)
  else
    match args with
    | [name; birthday] =>
        (found <- on_book (find name) ;;
         _ <- match found with
              | None => show_message (contact_not_found name)
              | Some _ => hret tt
              end ;;
         _ <- on_record "add_birthday" (option_map (fun _ => name) found)
                (add_birthday now_year now_cmp birthday) ;;
         show_message (PyStr.of_string "Birthday added."))%handler
    | _ => throw (HandlerValueError (msg_unpack 2 (List.length args)))
    end.

Definition show_birthday (args : list str) : Handler unit :=
  match args with
  | name :: _ =>
      (found <- on_book (find name) ;;
       match found with
       | None => show_message (contact_not_found name)
       | Some record =>
           match birthday record with
           | Some b =>
               show_message (PyStr.of_string "Birthday for " ++ name
                             ++ PyStr.of_string ": " ++ value b)
           | None =>
               show_message (name ++ PyStr.of_string " does not have a birthday set.")
           end
       end)%handler
  | [] => throw IndexError
  end.

Definition birthdays (today : date) (today_at : nat -> date) : Handler unit :=
  (upcoming_birthdays <- on_book (get_upcoming_birthdays today) ;;
   show_upcoming_birthdays today_at upcoming_birthdays)%handler.

End Handlers.

(** The handlers as the module defines them: decorated by [input_error]. *)
Definition add_contact (args : list str) : Handler returned :=
  input_error (Handlers.add_contact args).
Definition change_contact (args : list str) : Handler returned :=
  input_error (Handlers.change_contact args).
Definition show_phone (args : list str) : Handler returned :=
  input_error (Handlers.show_phone args).
Definition add_birthday_handler (now_year now_cmp : datetime) (args : list str)
    : Handler returned :=
  input_error (Handlers.add_birthday now_year now_cmp args).
Definition show_birthday (args : list str) : Handler returned :=
  input_error (Handlers.show_birthday args).
Definition birthdays (today : date) (today_at : nat -> date) : Handler returned :=
  input_error (Handlers.birthdays today today_at).

(* ================================================================== *)
(** * Properties *)

(** ** The calendar *)

Lemma is_leap_spec y :
  is_leap y = true <-> (y mod 4 = 0 /\ (y mod 100 <> 0 \/ y mod 400 = 0)).
Proof.
  unfold is_leap. rewrite andb_true_iff, orb_true_iff, negb_true_iff.
  rewrite !Z.eqb_eq, Z.eqb_neq. tauto.
Qed.

Lemma days_before_year_succ y :
  days_before_year (y + 1) = days_before_year y + (if is_leap y then 366 else 365).
Proof.
  unfold days_before_year.
  destruct (is_leap y) eqn:E.
  - apply is_leap_spec in E.
    replace (y + 1 - 1) with y by lia.
    Z.div_mod_to_equations. lia.
  - assert (~ (y mod 4 = 0 /\ (y mod 100 <> 0 \/ y mod 400 = 0))) as H
      by (rewrite <- is_leap_spec; congruence).
    replace (y + 1 - 1) with y by lia.
    Z.div_mod_to_equations. lia.
Qed.

Lemma valid_dateb_spec d : valid_dateb d = true <-> valid_date d.
Proof.
  unfold valid_dateb, valid_date.
  rewrite !andb_true_iff, !Z.leb_le. tauto.
Qed.

Lemma all_upto_spec f k : forall n m,
  all_upto f k n = true -> n <= m < n + Z.of_nat k -> f m = true.
Proof.
  induction k as [|k IH]; intros n m H Hm; [lia|].
  cbn [all_upto] in H. apply andb_true_iff in H as [H0 H1].
  destruct (Z.eq_dec m n) as [->|]; [assumption|].
  apply (IH (n + 1)); [assumption|lia].
Qed.

Lemma first_cycle_checked : all_upto cycle_ok (Z.to_nat 146097) 1 = true.
Proof. vm_cast_no_check (eq_refl true). Qed.

Lemma first_cycle r : 1 <= r <= 146097 -> cycle_ok r = true.
Proof.
  intros Hr.
  apply (all_upto_spec cycle_ok (Z.to_nat 146097) 1 r first_cycle_checked).
  rewrite Z2Nat.id; lia.
Qed.

Lemma is_leap_shift y q : is_leap (y + 400 * q) = is_leap y.
Proof.
  unfold is_leap.
  replace ((y + 400 * q) mod 4) with (y mod 4)
    by (replace (y + 400 * q) with (y + (100 * q) * 4) by lia; now rewrite Z.mod_add).
  replace ((y + 400 * q) mod 100) with (y mod 100)
    by (replace (y + 400 * q) with (y + (4 * q) * 100) by lia; now rewrite Z.mod_add).
  replace ((y + 400 * q) mod 400) with (y mod 400)
    by (replace (y + 400 * q) with (y + q * 400) by lia; now rewrite Z.mod_add).
  reflexivity.
Qed.

Lemma days_before_year_shift y q :
  days_before_year (y + 400 * q) = days_before_year y + q * DI400Y.
Proof.
  unfold days_before_year, DI400Y. cbv zeta.
  replace (y + 400 * q - 1) with (y - 1 + 400 * q) by lia.
  replace ((y - 1 + 400 * q) / 4) with ((y - 1) / 4 + 100 * q)
    by (replace (y - 1 + 400 * q) with (y - 1 + (100 * q) * 4) by lia; now rewrite Z.div_add).
  replace ((y - 1 + 400 * q) / 100) with ((y - 1) / 100 + 4 * q)
    by (replace (y - 1 + 400 * q) with (y - 1 + (4 * q) * 100) by lia; now rewrite Z.div_add).
  replace ((y - 1 + 400 * q) / 400) with ((y - 1) / 400 + q)
    by (replace (y - 1 + 400 * q) with (y - 1 + q * 400) by lia; now rewrite Z.div_add).
  lia.
Qed.

Lemma toordinal_shift q d :
  toordinal (shift_years q d) = toordinal d + q * DI400Y.
Proof.
  unfold toordinal, shift_years, days_before_month. cbn [year month day].
  rewrite is_leap_shift, days_before_year_shift. lia.
Qed.

Lemma fromordinal_shift n q :
  1 <= n <= DI400Y ->
  fromordinal (n + q * DI400Y) = shift_years q (fromordinal n).
Proof.
  intros Hn. unfold fromordinal.
  replace (n + q * DI400Y - 1) with (n - 1 + q * DI400Y) by lia.
  rewrite Z.div_add, Z.mod_add by (unfold DI400Y; lia).
  rewrite (Z.div_small (n - 1) DI400Y), (Z.mod_small (n - 1) DI400Y) by lia.
  cbv zeta.
  set (r := n - 1).
  set (n100 := r / DI100Y). set (r1 := r mod DI100Y).
  set (n4 := r1 / DI4Y). set (r2 := r1 mod DI4Y).
  set (n1 := r2 / 365). set (r3 := r2 mod 365).
  destruct ((n1 =? 4) || (n100 =? 4)).
  - unfold shift_years; cbn [year month day]. f_equal; lia.
  - match goal with |- context [if ?c then _ else _] => idtac end.
    destruct (r3 <? _); unfold shift_years; cbn [year month day]; f_equal; lia.
Qed.

Lemma days_before_year_mono y1 y2 :
  y1 <= y2 -> days_before_year y1 <= days_before_year y2.
Proof.
  intros H. unfold days_before_year. cbv zeta.
  Z.div_mod_to_equations. lia.
Qed.

Lemma days_before_month_nonneg y m : 1 <= m <= 12 -> 0 <= days_before_month y m.
Proof.
  intros H. unfold days_before_month.
  assert (m = 1 \/ m = 2 \/ m = 3 \/ m = 4 \/ m = 5 \/ m = 6 \/ m = 7 \/ m = 8
          \/ m = 9 \/ m = 10 \/ m = 11 \/ m = 12) as Hm by lia.
  destruct (is_leap y);
    repeat (destruct Hm as [-> | Hm]; [cbn; lia|]); subst; cbn; lia.
Qed.

Lemma shift_years_correct d r q :
  valid_date d -> toordinal d = r -> 0 <= q -> r + q * DI400Y <= MAXORDINAL ->
  valid_date (shift_years q d) /\ toordinal (shift_years q d) = r + q * DI400Y.
Proof.
  intros (Hy & Hm & Hd) Ho Hq Hmax.
  assert (Ht : toordinal (shift_years q d) = r + q * DI400Y)
    by (rewrite toordinal_shift; lia).
  split; [|exact Ht].
  destruct d as [y m dd]. unfold valid_date, shift_years in *. cbn [year month day] in *.
  unfold days_in_month in *. rewrite is_leap_shift.
  split; [|split; assumption].
  unfold MINYEAR, MAXYEAR in *. split; [lia|].
  destruct (Z_le_gt_dec (y + 400 * q) 9999) as [|Hbig]; [assumption|exfalso].
  assert (H1 : days_before_year 10000 <= days_before_year (y + 400 * q))
    by (apply days_before_year_mono; lia).
  unfold toordinal in Ht; cbn [year month day] in Ht.
  pose proof (days_before_month_nonneg (y + 400 * q) _ Hm).
  assert (E : days_before_year 10000 = 3652059) by reflexivity.
  unfold DI400Y, MAXORDINAL in *. lia.
Qed.

Theorem fromordinal_correct n :
  1 <= n <= MAXORDINAL ->
  valid_date (fromordinal n) /\ toordinal (fromordinal n) = n.
Proof.
  intros Hn. unfold MAXORDINAL in Hn.
  pose proof (Z.div_mod (n - 1) 146097 ltac:(lia)) as Hdm.
  pose proof (Z.mod_pos_bound (n - 1) 146097 ltac:(lia)) as Hmb.
  assert (Hq : 0 <= (n - 1) / 146097) by (apply Z.div_pos; lia).
  remember ((n - 1) / 146097) as q eqn:Eq.
  remember ((n - 1) mod 146097 + 1) as r eqn:Er.
  assert (Hr : 1 <= r <= 146097) by lia.
  assert (En : n = r + q * DI400Y) by (unfold DI400Y; lia).
  pose proof (first_cycle r Hr) as Hc.
  unfold cycle_ok in Hc. apply andb_true_iff in Hc as [Hv Ho].
  apply valid_dateb_spec in Hv. apply Z.eqb_eq in Ho.
  clear Eq Er Hdm Hmb. subst n. rewrite fromordinal_shift by (unfold DI400Y; lia).
  apply shift_years_correct; try assumption.
  unfold MAXORDINAL; lia.
Qed.

Lemma days_before_month_succ y m :
  1 <= m < 12 ->
  days_before_month y (m + 1) = days_before_month y m + days_in_month y m.
Proof.
  intros H. unfold days_before_month, days_in_month.
  month_cases m Hm; destruct (is_leap y); cbn; lia.
Qed.

Lemma days_in_month_pos y m : 1 <= m <= 12 -> 28 <= days_in_month y m <= 31.
Proof.
  intros H. unfold days_in_month.
  month_cases m Hm; destruct (is_leap y); cbn; lia.
Qed.

Lemma days_before_month_mono y m1 m2 :
  1 <= m1 -> m1 < m2 -> m2 <= 12 ->
  days_before_month y m1 + days_in_month y m1 <= days_before_month y m2.
Proof.
  intros H1 H2 H3.
  replace m2 with (m1 + 1 + Z.of_nat (Z.to_nat (m2 - m1 - 1))) by lia.
  assert (Hb : m1 + 1 + Z.of_nat (Z.to_nat (m2 - m1 - 1)) <= 12) by lia.
  induction (Z.to_nat (m2 - m1 - 1)) as [|k IH].
  - rewrite Z.add_0_r, days_before_month_succ by lia. lia.
  - rewrite Nat2Z.inj_succ in *.
    replace (m1 + 1 + Z.succ (Z.of_nat k)) with (m1 + 1 + Z.of_nat k + 1) by lia.
    rewrite days_before_month_succ by lia.
    pose proof (days_in_month_pos y (m1 + 1 + Z.of_nat k)). lia.
Qed.

Lemma days_before_month_end y m :
  1 <= m <= 12 ->
  days_before_month y m + days_in_month y m <= (if is_leap y then 366 else 365).
Proof.
  intros H. unfold days_before_month, days_in_month.
  month_cases m Hm; destruct (is_leap y); cbn; lia.
Qed.

Lemma toordinal_year_bounds d :
  valid_date d ->
  days_before_year (year d) < toordinal d <= days_before_year (year d + 1).
Proof.
  intros (Hy & Hm & Hd). unfold toordinal.
  rewrite days_before_year_succ.
  pose proof (days_before_month_nonneg (year d) _ Hm).
  pose proof (days_before_month_end (year d) _ Hm). lia.
Qed.

Theorem date_cmp_toordinal a b :
  valid_date a -> valid_date b ->
  date_cmp a b = (toordinal a ?= toordinal b).
Proof.
  intros Ha Hb. symmetry. unfold date_cmp.
  pose proof (toordinal_year_bounds a Ha) as Ba.
  pose proof (toordinal_year_bounds b Hb) as Bb.
  destruct Ha as (Hya & Hma & Hda), Hb as (Hyb & Hmb & Hdb).
  destruct (Z.compare_spec (year a) (year b)) as [Ey|Ly|Ly].
  - unfold toordinal. rewrite <- Ey in *.
    destruct (Z.compare_spec (month a) (month b)) as [Em|Lm|Lm].
    + rewrite <- Em. destruct (Z.compare_spec (day a) (day b)); 
        [apply Z.compare_eq_iff | apply Z.compare_lt_iff | apply Z.compare_gt_iff]; lia.
    + apply Z.compare_lt_iff.
      pose proof (days_before_month_mono (year a) (month a) (month b)). lia.
    + apply Z.compare_gt_iff.
      pose proof (days_before_month_mono (year a) (month b) (month a)). lia.
  - apply Z.compare_lt_iff.
    pose proof (days_before_year_mono (year a + 1) (year b)). lia.
  - apply Z.compare_gt_iff.
    pose proof (days_before_year_mono (year b + 1) (year a)). lia.
Qed.

Corollary date_lt_toordinal a b :
  valid_date a -> valid_date b -> date_lt a b = (toordinal a <? toordinal b).
Proof.
  intros Ha Hb. unfold date_lt, Z.ltb. now rewrite date_cmp_toordinal.
Qed.

Corollary date_le_toordinal a b :
  valid_date a -> valid_date b -> date_le a b = (toordinal a <=? toordinal b).
Proof.
  intros Ha Hb. unfold date_le, Z.leb. now rewrite date_cmp_toordinal.
Qed.

Lemma toordinal_range d : valid_date d -> 1 <= toordinal d <= MAXORDINAL.
Proof.
  intros Hd. pose proof (toordinal_year_bounds d Hd) as B.
  destruct Hd as (Hy & _). unfold MINYEAR, MAXYEAR in Hy.
  pose proof (days_before_year_mono 1 (year d)).
  pose proof (days_before_year_mono (year d + 1) 10000).
  change (days_before_year 1) with 0 in *.
  change (days_before_year 10000) with 3652059 in *.
  unfold MAXORDINAL. lia.
Qed.

(** ** Strings *)

Lemma str_eqb_eq a b : PyStr.str_eqb a b = true <-> a = b.
Proof.
  revert b. induction a as [|x a IH]; intros [|y b]; cbn; try (split; congruence).
  rewrite andb_true_iff, N.eqb_eq, IH. split.
  - intros [-> ->]. reflexivity.
  - intros H. injection H as -> ->. split; reflexivity.
Qed.

Lemma str_eqb_refl a : PyStr.str_eqb a a = true.
Proof. now apply str_eqb_eq. Qed.

Lemma lstrip_head s c :
  hd_error (PyStr.lstrip s) = Some c -> PyStr.isspace c = false.
Proof.
  induction s as [|x s IH]; cbn; [discriminate|].
  destruct (PyStr.isspace x) eqn:E; [exact IH|].
  cbn. intros H. injection H as <-. exact E.
Qed.

Lemma lstrip_nil s : PyStr.lstrip s = [] <-> forallb PyStr.isspace s = true.
Proof.
  induction s as [|x s IH]; cbn; [tauto|].
  destruct (PyStr.isspace x); cbn; [exact IH|]. split; discriminate.
Qed.

Lemma lstrip_snoc s c :
  PyStr.isspace c = false -> PyStr.lstrip (s ++ [c]) = PyStr.lstrip s ++ [c].
Proof.
  intros Hc. induction s as [|x s IH]; cbn.
  - now rewrite Hc.
  - destruct (PyStr.isspace x); [exact IH|reflexivity].
Qed.

Lemma lstrip_fixed s :
  (forall c, hd_error s = Some c -> PyStr.isspace c = false) -> PyStr.lstrip s = s.
Proof.
  destruct s as [|x s]; cbn; [reflexivity|].
  intros H. now rewrite (H x eq_refl).
Qed.

Lemma forallb_rev {A} (f : A -> bool) l : forallb f (rev l) = forallb f l.
Proof.
  induction l as [|x l IH]; cbn; [reflexivity|].
  rewrite forallb_app, IH. cbn. rewrite andb_true_r. apply andb_comm.
Qed.

Lemma strip_trimmed s : trimmed (PyStr.strip s).
Proof.
  unfold trimmed, PyStr.strip, PyStr.rstrip. split.
  - intros c. destruct (PyStr.lstrip s) as [|x t] eqn:E; cbn; [discriminate|].
    assert (Hx : PyStr.isspace x = false) by (apply (lstrip_head s); now rewrite E).
    rewrite lstrip_snoc by exact Hx. rewrite rev_app_distr. cbn.
    intros H. injection H as <-. exact Hx.
  - intros c. rewrite rev_involutive. apply lstrip_head.
Qed.

Lemma strip_nil s : PyStr.strip s = [] <-> forallb PyStr.isspace s = true.
Proof.
  rewrite <- lstrip_nil. unfold PyStr.strip, PyStr.rstrip. split.
  - intros H. destruct (PyStr.lstrip s) as [|x t] eqn:E; [reflexivity|].
    assert (Hx : PyStr.isspace x = false) by (apply (lstrip_head s); now rewrite E).
    cbn in H. rewrite lstrip_snoc, rev_app_distr in H by exact Hx. discriminate.
  - intros ->. reflexivity.
Qed.

Lemma strip_idempotent s : PyStr.strip (PyStr.strip s) = PyStr.strip s.
Proof.
  destruct (strip_trimmed s) as [Hl Hr].
  unfold PyStr.strip at 1. rewrite (lstrip_fixed _ Hl).
  unfold PyStr.rstrip. rewrite (lstrip_fixed _ Hr). apply rev_involutive.
Qed.

(** ** The dictionary *)

Lemma dict_get_In k d r : dict_get k d = Some r -> In (k, r) d.
Proof.
  induction d as [|[k' v] d IH]; cbn; [discriminate|].
  destruct (PyStr.str_eqb k' k) eqn:E.
  - apply str_eqb_eq in E as ->. intros H. injection H as ->. now left.
  - intros H. right. now apply IH.
Qed.

Lemma dict_get_set_same k v d : dict_get k (dict_set k v d) = Some v.
Proof.
  induction d as [|[k' v'] d IH]; cbn.
  - now rewrite str_eqb_refl.
  - destruct (PyStr.str_eqb k' k) eqn:E; cbn; rewrite E; [reflexivity|exact IH].
Qed.

Lemma dict_set_In k v d k0 r :
  In (k0, r) (dict_set k v d) -> (k0 = k /\ r = v) \/ In (k0, r) d.
Proof.
  induction d as [|[k' v'] d IH]; cbn.
  - intros [H|[]]. injection H as <- <-. now left.
  - destruct (PyStr.str_eqb k' k) eqn:E; cbn.
    + apply str_eqb_eq in E as ->.
      intros [H|H]; [injection H as <- <-; now left | right; now right].
    + intros [H|H]; [right; now left|].
      destruct (IH H) as [?|?]; [now left | right; now right].
Qed.

Lemma dict_del_In k d k0 r : In (k0, r) (dict_del k d) -> In (k0, r) d.
Proof.
  induction d as [|[k' v'] d IH]; cbn; [tauto|].
  destruct (PyStr.str_eqb k' k); cbn; [now right|].
  intros [H|H]; [now left | right; now apply IH].
Qed.

(** [dict_set] twice under one key leaves one entry, the second. *)
Lemma dict_set_set k v1 v2 d :
  dict_set k v2 (dict_set k v1 d) = dict_set k v2 d.
Proof.
  induction d as [|[k' v'] d IH]; cbn.
  - now rewrite str_eqb_refl.
  - destruct (PyStr.str_eqb k' k) eqn:E; cbn; rewrite E; [reflexivity|now rewrite IH].
Qed.

(** ** [Name] *)

(** C8 (as stated, refuted): [Name("   ")] is accepted and its stored
    value is the empty string, so an accepted name can be empty. *)
Lemma Name_init_blank_is_empty :
  value (Name_init (PyStr.of_string "   ")) = [].
Proof. reflexivity. Qed.

(** C8 (amended): the value stored by [Name.__init__] has no whitespace at
    either end, and it is empty exactly when the raw text consists of
    whitespace only (the empty text included). *)
Theorem Name_init_trimmed raw :
  trimmed (value (Name_init raw)) /\
  (value (Name_init raw) = [] <-> forallb PyStr.isspace raw = true).
Proof.
  cbn [Name_init value]. split; [apply strip_trimmed | apply strip_nil].
Qed.

(** ** [Phone] *)

Lemma validate_phone_ok raw :
  validate_phone raw = Ok tt <-> PyStr.isdigit raw = true /\ PyStr.len raw = 10.
Proof.
  unfold validate_phone.
  destruct (PyStr.isdigit raw), (Z.eqb_spec (PyStr.len raw) 10); cbn;
    split; intros H; try reflexivity; try discriminate;
    try (destruct H; congruence); auto.
Qed.

Lemma validate_phone_raises raw :
  ~ (PyStr.isdigit raw = true /\ PyStr.len raw = 10) ->
  exists m, validate_phone raw = Raise (ValueError m)
            /\ kind_of_message m = Some InvalidFormat.
Proof.
  unfold validate_phone. intros H.
  destruct (PyStr.isdigit raw); cbn; [|eexists; split; reflexivity].
  destruct (Z.eqb_spec (PyStr.len raw) 10); cbn; [tauto|eexists; split; reflexivity].
Qed.

Lemma ascii_digit_isdigit_char c :
  PyStr.ascii_digit c = true -> PyStr.isdigit_char c = true.
Proof.
  unfold PyStr.ascii_digit, PyStr.isdigit_char, PyStr.isdecimal, PyStr.decimal_value.
  intros H. cbn [PyStr.decimal_blocks PyStr.block_value].
  change (0x30 + 9)%N with 0x39%N. now rewrite H.
Qed.

Lemma ascii_digits_isdigit raw :
  raw <> [] -> forallb PyStr.ascii_digit raw = true -> PyStr.isdigit raw = true.
Proof.
  intros Hne H. unfold PyStr.isdigit. destruct raw as [|c raw]; [congruence|].
  rewrite forallb_forall in *. intros x Hx. apply ascii_digit_isdigit_char, H, Hx.
Qed.

Lemma Phone_init_ok_iff raw :
  Phone_init raw = Ok (mkField raw)
  <-> PyStr.isdigit raw = true /\ PyStr.len raw = 10.
Proof.
  rewrite <- validate_phone_ok. unfold Phone_init.
  destruct (validate_phone raw) as [[]|e]; cbn; split; congruence.
Qed.

Lemma Phone_init_value raw p : Phone_init raw = Ok p -> p = mkField raw.
Proof.
  unfold Phone_init.
  destruct (validate_phone raw) as [[]|e]; cbn; [|discriminate].
  intros H. now injection H as <-.
Qed.

Lemma Phone_init_raises raw :
  ~ (PyStr.isdigit raw = true /\ PyStr.len raw = 10) ->
  exists m, Phone_init raw = Raise (ValueError m)
            /\ kind_of_message m = Some InvalidFormat.
Proof.
  intros H. destruct (validate_phone_raises raw H) as (m & Hm & Hk).
  exists m. unfold Phone_init. rewrite Hm. split; [reflexivity|exact Hk].
Qed.

(** C5 (as stated, refuted): the ten Arabic-Indic digits U+0661 ...
    U+0669, U+0660 are not ASCII digits, and [Phone] accepts and stores
    them. *)
Lemma Phone_init_accepts_non_ascii_digits :
  let raw := [0x661; 0x662; 0x663; 0x664; 0x665; 0x666; 0x667; 0x668; 0x669; 0x660]%N in
  Phone_init raw = Ok (mkField raw) /\ forallb PyStr.ascii_digit raw = false.
Proof. split; reflexivity. Qed.

(** C5 (amended): [Phone(raw)] succeeds, storing [raw] itself, exactly when
    [raw.isdigit()] holds and [len(raw) == 10], where [isdigit] is true of
    every Unicode digit, not only of ASCII ones; otherwise it raises a
    [ValueError] of kind InvalidFormat and builds no phone.  Ten ASCII
    digits are always accepted. *)
Theorem Phone_init_spec raw :
  (Phone_init raw = Ok (mkField raw)
     <-> PyStr.isdigit raw = true /\ PyStr.len raw = 10) /\
  (forall p, Phone_init raw = Ok p -> value p = raw) /\
  (~ (PyStr.isdigit raw = true /\ PyStr.len raw = 10) ->
     exists m, Phone_init raw = Raise (ValueError m)
               /\ kind_of_message m = Some InvalidFormat) /\
  (forallb PyStr.ascii_digit raw = true -> PyStr.len raw = 10 ->
     Phone_init raw = Ok (mkField raw)).
Proof.
  split; [apply Phone_init_ok_iff|]. split; [|split].
  - intros p H. now rewrite (Phone_init_value raw p H).
  - apply Phone_init_raises.
  - intros Ha Hl. apply Phone_init_ok_iff. split; [|exact Hl].
    apply ascii_digits_isdigit; [|exact Ha].
    intros ->. discriminate.
Qed.

(** A use of [Phone_init_spec]: a ten-digit ASCII number. *)
Lemma Phone_init_spec_witness :
  Phone_init (PyStr.of_string "0501234567")
  = Ok (mkField (PyStr.of_string "0501234567")).
Proof.
  apply (Phone_init_spec (PyStr.of_string "0501234567")); reflexivity.
Defined.

(** ** [Record] *)

Lemma add_phone_unfold raw r :
  add_phone raw r =
  match Phone_init raw with
  | Ok p => (Ok tt, set_phones (phones r ++ [p]) r)
  | Raise e => (Raise e, r)
  end.
Proof. unfold add_phone, bind, lift, get, put. now destruct (Phone_init raw). Qed.

(** C9: a call of [add_phone] that raises leaves the record as it was, and
    [add_phone] raises (with kind InvalidFormat) whenever the text is
    not ten digits. *)
Theorem add_phone_all_or_nothing raw r :
  (forall e r', add_phone raw r = (Raise e, r') -> r' = r) /\
  (~ (PyStr.isdigit raw = true /\ PyStr.len raw = 10) ->
     exists m, add_phone raw r = (Raise (ValueError m), r)
               /\ kind_of_message m = Some InvalidFormat).
Proof.
  rewrite add_phone_unfold. split.
  - intros e r'. destruct (Phone_init raw); intros H; inversion H; reflexivity.
  - intros H. destruct (Phone_init_raises raw H) as (m & -> & Hk).
    exists m. split; [reflexivity|exact Hk].
Qed.

(** A use of [add_phone_all_or_nothing]: nine digits on a record that
    already has a phone. *)
Lemma add_phone_all_or_nothing_witness :
  let r := mkRecord (Name_init (PyStr.of_string "Ann"))
                    [mkField (PyStr.of_string "0501234567")] None in
  exists m, add_phone (PyStr.of_string "123456789") r = (Raise (ValueError m), r)
            /\ kind_of_message m = Some InvalidFormat.
Proof.
  cbv zeta.
  apply (add_phone_all_or_nothing (PyStr.of_string "123456789")).
  intros [_ H]. vm_compute in H. discriminate.
Defined.

Lemma index_of_phone_has_phone p r :
  has_phone p r = match index_of_phone p (phones r) with Some _ => true | None => false end.
Proof.
  unfold has_phone. induction (phones r) as [|x ps IH]; cbn; [reflexivity|].
  destruct (PyStr.str_eqb (value x) p); cbn; [reflexivity|].
  rewrite IH. now destruct (index_of_phone p ps).
Qed.

(** C6 (as stated, refuted): on a record without phones, [edit_phone]
    with equal arguments raises "Phone ... not found", of kind NotFound. *)
Lemma edit_phone_same_absent_is_not_found :
  let p := PyStr.of_string "0501234567" in
  let r := Record_init (PyStr.of_string "Ann") in
  edit_phone p p r = (Raise (ValueError (msg_phone_not_found p)), r)
  /\ kind_of (ValueError (msg_phone_not_found p)) <> Some InvalidArgument.
Proof. split; [reflexivity | discriminate]. Qed.

(** C6 (amended): [edit_phone(old, new)] with [old == new] always raises
    and leaves the record as it was; the error is InvalidArgument when a
    phone equal to [old] is stored, and NotFound when none is. *)
Theorem edit_phone_same_always_fails p r :
  exists m, edit_phone p p r = (Raise (ValueError m), r) /\
            kind_of_message m
            = Some (if has_phone p r then InvalidArgument else NotFound).
Proof.
  rewrite index_of_phone_has_phone.
  unfold edit_phone, bind, get, raise.
  destruct (index_of_phone p (phones r)).
  - rewrite str_eqb_refl. eexists; split; reflexivity.
  - eexists; split; reflexivity.
Qed.

(** ** [AddressBook]: insertion, lookup, deletion *)

Lemma add_record_unfold record book :
  add_record record book
  = (Ok tt, mkBook (dict_set (value (name record)) record (data book))).
Proof. reflexivity. Qed.

Lemma find_unfold k book : find k book = (Ok (dict_get k (data book)), book).
Proof. reflexivity. Qed.

Lemma delete_unfold k book :
  delete k book =
  if dict_contains k (data book)
  then (Ok tt, mkBook (dict_del k (data book)))
  else (Raise (KeyError (msg_record_not_found k)), book).
Proof. unfold delete, bind, get. cbn. now destruct (dict_contains k (data book)). Qed.

(** C7: adding a record under the name of an earlier one replaces it.
    After [add_record] of any record [r1] named [A] and then of a fresh
    [Record(A)] that was given the phone [p2], [find(A)] returns that
    second record: its phones are exactly [[p2]] and it has no birthday,
    whatever [r1] held; the book is the one that adding the second
    record alone would give. *)
Theorem add_record_last_write_wins book raw p2 r1 r2 :
  value (name r1) = PyStr.strip raw ->
  add_phone p2 (Record_init raw) = (Ok tt, r2) ->
  let book1 := snd (add_record r1 book) in
  let book2 := snd (add_record r2 book1) in
  fst (find (PyStr.strip raw) book2) = Ok (Some r2) /\
  phones r2 = [mkField p2] /\ birthday r2 = None /\
  book2 = snd (add_record r2 book).
Proof.
  intros Hn1 Hadd. rewrite add_phone_unfold in Hadd.
  destruct (Phone_init p2) as [p|e] eqn:Ep; [|discriminate].
  apply Phone_init_value in Ep as ->.
  injection Hadd as <-.
  cbv zeta. rewrite !add_record_unfold. cbn [snd data]. rewrite find_unfold.
  cbn [fst data set_phones Record_init name phones birthday Name_init value app].
  rewrite Hn1, dict_set_set, dict_get_set_same. repeat split.
Qed.

(** A use of [add_record_last_write_wins]: Ann is added with one phone
    and a birthday, then added again with another phone. *)
Lemma add_record_last_write_wins_witness :
  let A := PyStr.of_string "Ann" in
  let p1 := PyStr.of_string "0501234567" in
  let p2 := PyStr.of_string "0679876543" in
  let r1 := mkRecord (Name_init A) [mkField p1] (Some (mkField (PyStr.of_string "20.06.1990"))) in
  let r2 := mkRecord (Name_init A) [mkField p2] None in
  fst (find A (snd (add_record r2 (snd (add_record r1 empty_book))))) = Ok (Some r2).
Proof.
  cbv zeta.
  apply (add_record_last_write_wins empty_book (PyStr.of_string "Ann")
           (PyStr.of_string "0679876543")
           (mkRecord (Name_init (PyStr.of_string "Ann"))
                     [mkField (PyStr.of_string "0501234567")]
                     (Some (mkField (PyStr.of_string "20.06.1990"))))); reflexivity.
Defined.

Lemma run_operation_keeps_names book o :
  keys_are_names book -> keys_are_names (run_operation book o).
Proof.
  intros Hinv. destruct o as [r|n|n]; cbn [run_operation].
  - rewrite add_record_unfold. cbn [snd]. intros k r0 Hin. cbn [data] in Hin.
    apply dict_set_In in Hin as [[-> ->]|Hin]; [reflexivity|now apply Hinv].
  - exact Hinv.
  - rewrite delete_unfold. destruct (dict_contains n (data book)); cbn [snd]; [|exact Hinv].
    intros k r0 Hin. cbn [data] in Hin. apply dict_del_In in Hin. now apply Hinv.
Qed.

Lemma run_operation_keeps_trimmed book o :
  name_constructed o ->
  (forall k r, In (k, r) (data book) -> trimmed k) ->
  forall k r, In (k, r) (data (run_operation book o)) -> trimmed k.
Proof.
  intros Hc Hinv. destruct o as [r|n|n]; cbn [run_operation].
  - rewrite add_record_unfold. cbn [snd data]. intros k r0 Hin.
    apply dict_set_In in Hin as [[-> ->]|Hin]; [|now apply (Hinv k r0)].
    destruct Hc as [raw ->]. apply strip_trimmed.
  - exact Hinv.
  - rewrite delete_unfold. destruct (dict_contains n (data book)); cbn [snd]; [|exact Hinv].
    intros k r0 Hin. cbn [data] in Hin. apply dict_del_In in Hin. now apply (Hinv k r0).
Qed.

Lemma run_operations_invariant ops : forall book,
  keys_are_names book -> keys_are_names (run_operations ops book).
Proof.
  induction ops as [|o ops IH]; intros book Hinv; cbn; [exact Hinv|].
  apply IH, run_operation_keeps_names, Hinv.
Qed.

Lemma run_operations_trimmed ops : forall book,
  Forall name_constructed ops ->
  (forall k r, In (k, r) (data book) -> trimmed k) ->
  forall k r, In (k, r) (data (run_operations ops book)) -> trimmed k.
Proof.
  induction ops as [|o ops IH]; intros book Hc Hinv; cbn; [exact Hinv|].
  inversion Hc; subst. apply IH; [assumption|].
  now apply run_operation_keeps_trimmed.
Qed.

(** C10: after any sequence of [add_record], [find] and [delete] from the
    empty book, every key is the name value of the record stored under
    it, so a record returned by [find(k)] has name value [k]; and when
    the added records got their names from [Name.__init__], every key is
    trimmed. *)
Theorem keys_are_names_invariant ops :
  let book := run_operations ops empty_book in
  keys_are_names book /\
  (forall k r, fst (find k book) = Ok (Some r) -> value (name r) = k) /\
  (Forall name_constructed ops ->
   forall k r, In (k, r) (data book) -> trimmed k).
Proof.
  cbv zeta.
  assert (Hinv : keys_are_names (run_operations ops empty_book))
    by (apply run_operations_invariant; intros k r []).
  split; [exact Hinv|]. split.
  - intros k r. rewrite find_unfold. cbn [fst]. intros H. injection H as H.
    symmetry. apply Hinv. now apply dict_get_In.
  - intros Hc. apply run_operations_trimmed; [exact Hc|]. intros k r [].
Qed.

(** A use of [keys_are_names_invariant]: two additions (one under a name
    with surrounding blanks), a lookup and two deletions, one of them of
    an absent name. *)
Lemma keys_are_names_invariant_witness :
  let ops := [op_add_record (Record_init (PyStr.of_string "  Ann "));
              op_add_record (Record_init (PyStr.of_string "Bob"));
              op_find (PyStr.of_string "Ann");
              op_delete (PyStr.of_string "Cy");
              op_delete (PyStr.of_string "Bob")] in
  data (run_operations ops empty_book)
    = [(PyStr.of_string "Ann", Record_init (PyStr.of_string "  Ann "))]
  /\ trimmed (PyStr.of_string "Ann").
Proof.
  cbv zeta. split; [reflexivity|].
  refine (proj2 (proj2 (keys_are_names_invariant
           [op_add_record (Record_init (PyStr.of_string "  Ann "));
            op_add_record (Record_init (PyStr.of_string "Bob"));
            op_find (PyStr.of_string "Ann");
            op_delete (PyStr.of_string "Cy");
            op_delete (PyStr.of_string "Bob")])) _
           (PyStr.of_string "Ann") (Record_init (PyStr.of_string "  Ann ")) _).
  - repeat constructor; cbn; eexists; reflexivity.
  - vm_compute. left. reflexivity.
Defined.

(** ** [Birthday] *)

(** C3 (as stated, refuted): with the clock at 3 November 2026, noon,
    [Birthday("29.02.2024")] is accepted. *)
Lemma Birthday_init_accepts_leap_day_2024 :
  let now := mkdatetime (mkdate 2026 11 3) 12 0 0 0 in
  Birthday_init now now (PyStr.of_string "29.02.2024")
  = Ok (mkField (PyStr.of_string "29.02.2024")).
Proof. reflexivity. Qed.

Lemma strptime_leap_day_2024 :
  strptime (PyStr.of_string "29.02.2024")
  = Ok (mkdatetime (mkdate 2024 2 29) 0 0 0 0).
Proof. reflexivity. Qed.

(** C3 (amended): [Birthday("29.02.2001")] raises "Invalid date" whatever
    the clock shows.  [Birthday("29.02.2024")] passes the year ceiling
    (2024 is below 2025): it is accepted exactly when the year read from
    the clock is at least 2024 and midnight of 29 February 2024 is not
    after the clock, and raises "Invalid date" otherwise. *)
Theorem Birthday_init_leap_days now_year now_cmp :
  Birthday_init now_year now_cmp (PyStr.of_string "29.02.2001")
    = Raise (ValueError msg_invalid_date) /\
  kind_of (ValueError msg_invalid_date) = Some InvalidDate /\
  Birthday_init now_year now_cmp (PyStr.of_string "29.02.2024")
    = (if (2024 <=? year (dt_date now_year))
          && negb (datetime_gt (mkdatetime (mkdate 2024 2 29) 0 0 0 0) now_cmp)
       then Ok (mkField (PyStr.of_string "29.02.2024"))
       else Raise (ValueError msg_invalid_date)).
Proof.
  split; [reflexivity|]. split; [reflexivity|].
  unfold Birthday_init.
  change (date_pattern_match (PyStr.of_string "29.02.2024")) with true.
  rewrite strptime_leap_day_2024. cbn [negb rbind dt_date year month].
  change ((1 <=? 2) && (2 <=? 12)) with true.
  change (2024 <=? 0) with false. change (2024 >=? 2025) with false.
  cbn [negb]. rewrite orb_false_r.
  rewrite Z.gtb_ltb, Z.ltb_antisym.
  destruct (2024 <=? year (dt_date now_year)); cbn [negb andb]; [|reflexivity].
  now destruct (datetime_gt _ now_cmp).
Qed.

(** ** Dates built and moved by the query *)

Lemma check_date_fields_ok y m d dt :
  check_date_fields y m d = Ok dt -> dt = mkdate y m d /\ valid_date dt.
Proof.
  unfold check_date_fields, valid_date.
  destruct ((MINYEAR <=? y) && (y <=? MAXYEAR)) eqn:Ey; cbn [negb]; [|discriminate].
  destruct ((1 <=? m) && (m <=? 12)) eqn:Em; cbn [negb]; [|discriminate].
  destruct ((1 <=? d) && (d <=? days_in_month y m)) eqn:Ed; cbn [negb]; [|discriminate].
  intros H. injection H as <-. cbn [year month day].
  rewrite andb_true_iff, !Z.leb_le in Ey, Em, Ed. tauto.
Qed.

Lemma check_date_fields_valid y m d :
  valid_date (mkdate y m d) -> check_date_fields y m d = Ok (mkdate y m d).
Proof.
  unfold check_date_fields, valid_date. cbn [year month day].
  intros (Hy & Hm & Hd).
  replace ((MINYEAR <=? y) && (y <=? MAXYEAR)) with true
    by (symmetry; rewrite andb_true_iff, !Z.leb_le; exact Hy).
  replace ((1 <=? m) && (m <=? 12)) with true
    by (symmetry; rewrite andb_true_iff, !Z.leb_le; exact Hm).
  replace ((1 <=? d) && (d <=? days_in_month y m)) with true
    by (symmetry; rewrite andb_true_iff, !Z.leb_le; exact Hd).
  reflexivity.
Qed.

(** A parsed text is a real date at midnight. *)
Lemma strptime_valid s dt :
  strptime s = Ok dt ->
  valid_date (dt_date dt) /\ dt = mkdatetime (dt_date dt) 0 0 0 0.
Proof.
  unfold strptime.
  destruct (format_regex_matches s) as [|[[[d m] y] rest] ?]; [discriminate|].
  destruct rest; [|discriminate].
  destruct (PyStr.int y) as [yy|]; cbn [rbind]; [|discriminate].
  destruct (PyStr.int m) as [mm|]; cbn [rbind]; [|discriminate].
  destruct (PyStr.int d) as [dd|]; cbn [rbind]; [|discriminate].
  destruct (check_date_fields yy mm dd) as [dte|] eqn:E; cbn [rbind]; [|discriminate].
  intros H. injection H as <-. cbn [dt_date].
  apply check_date_fields_ok in E as [_ Hv]. split; [exact Hv|reflexivity].
Qed.

Lemma replace_year_ok dt y dt' :
  replace_year dt y = Ok dt' ->
  valid_date (dt_date dt') /\
  dt' = mkdatetime (mkdate y (month (dt_date dt)) (day (dt_date dt)))
                   (hour dt) (minute dt) (second dt) (microsecond dt).
Proof.
  unfold replace_year.
  destruct (check_date_fields y _ _) as [d|] eqn:E; cbn [rbind]; [|discriminate].
  intros H. injection H as <-. cbn [dt_date].
  apply check_date_fields_ok in E as [-> Hv]. split; [exact Hv|reflexivity].
Qed.

Lemma date_add_days_ok d k d' :
  date_add_days d k = Ok d' ->
  valid_date d' /\ toordinal d' = toordinal d + k.
Proof.
  unfold date_add_days.
  destruct ((0 <? toordinal d + k) && (toordinal d + k <=? MAXORDINAL)) eqn:E; [|discriminate].
  intros H. injection H as <-.
  apply andb_true_iff in E as [E1 E2]. apply Z.ltb_lt in E1. apply Z.leb_le in E2.
  apply fromordinal_correct. lia.
Qed.

Lemma date_add_days_in_range d k :
  1 <= toordinal d + k <= MAXORDINAL -> exists d', date_add_days d k = Ok d'.
Proof.
  intros H. unfold date_add_days.
  replace ((0 <? toordinal d + k) && (toordinal d + k <=? MAXORDINAL)) with true
    by (symmetry; rewrite andb_true_iff, Z.ltb_lt, Z.leb_le; lia).
  eexists; reflexivity.
Qed.

Lemma datetime_add_days_ok dt k dt' :
  datetime_add_days dt k = Ok dt' ->
  valid_date (dt_date dt') /\ toordinal (dt_date dt') = toordinal (dt_date dt) + k /\
  dt' = mkdatetime (dt_date dt') (hour dt) (minute dt) (second dt) (microsecond dt).
Proof.
  unfold datetime_add_days.
  destruct (date_add_days (dt_date dt) k) as [d|] eqn:E; cbn [rbind]; [|discriminate].
  intros H. injection H as <-. cbn [dt_date].
  apply date_add_days_ok in E as [Hv Ho]. split; [exact Hv|split; [exact Ho|reflexivity]].
Qed.

(** With the year of [today], a date is before [today] exactly when its
    month and day are. *)
Lemma date_lt_same_year today m d :
  date_lt (mkdate (year today) m d) today
  = (m <? month today) || ((m =? month today) && (d <? day today)).
Proof.
  unfold date_lt, date_cmp. cbn [year month day]. rewrite Z.compare_refl.
  destruct (Z.compare_spec m (month today)) as [E|L|G].
  - subst m. rewrite Z.ltb_irrefl, Z.eqb_refl. cbn [orb andb].
    unfold Z.ltb. now destruct (d ?= day today).
  - apply Z.ltb_lt in L. now rewrite L.
  - replace (m <? month today) with false by (symmetry; apply Z.ltb_ge; lia).
    replace (m =? month today) with false by (symmetry; apply Z.eqb_neq; lia).
    reflexivity.
Qed.

(** A day that is not 29 February exists in every year. *)
Lemma day_exists_every_year y y' m d :
  1 <= m <= 12 -> 1 <= d <= days_in_month y m -> ~ (m = 2 /\ d = 29) ->
  1 <= d <= days_in_month y' m.
Proof.
  intros Hm Hd Hn. unfold days_in_month in *.
  destruct (Z.eqb_spec m 2) as [->|Hm2]; cbn [andb] in *; [|exact Hd].
  destruct (is_leap y), (is_leap y'); cbn in *; lia.
Qed.

Lemma weekday_after_saturday o :
  (o + 6) mod 7 = 5 -> (o + 2 + 6) mod 7 = 0.
Proof. intros H. Z.div_mod_to_equations. lia. Qed.

Lemma weekday_after_sunday o :
  (o + 6) mod 7 = 6 -> (o + 1 + 6) mod 7 = 0.
Proof. intros H. Z.div_mod_to_equations. lia. Qed.

(** The last Saturday and Sunday of the calendar are not its last days. *)
Lemma weekend_shift_in_range o :
  1 <= o <= MAXORDINAL ->
  ((o + 6) mod 7 = 5 -> o + 2 <= MAXORDINAL) /\
  ((o + 6) mod 7 = 6 -> o + 1 <= MAXORDINAL).
Proof. unfold MAXORDINAL. intros H. split; intros Hw; Z.div_mod_to_equations; lia. Qed.

(** ** [get_upcoming_birthdays] *)

(** What the loop body has in [birthday_this_year] when it reaches the
    window test: the occurrence, a real date, at midnight. *)
Lemma body_occurrence today s dt b0 bty :
  strptime s = Ok dt ->
  replace_year dt (year today) = Ok b0 ->
  (if date_lt (date_of b0) today then replace_year b0 (year today + 1) else Ok b0)
    = Ok bty ->
  dt_date bty = occurrence today (dt_date dt) /\
  valid_date (dt_date bty) /\
  bty = mkdatetime (dt_date bty) 0 0 0 0.
Proof.
  intros Hs H0 H1.
  apply strptime_valid in Hs as [_ Hz].
  apply replace_year_ok in H0 as [Hv0 E0].
  rewrite Hz in E0. cbn [hour minute second microsecond dt_date] in E0.
  unfold occurrence. rewrite <- date_lt_same_year.
  subst b0. unfold date_of in H1. cbn [dt_date] in *.
  destruct (date_lt _ today).
  - apply replace_year_ok in H1 as [Hv1 E1]. cbn in E1. subst bty. cbn [dt_date] in *.
    split; [reflexivity|split; [assumption|reflexivity]].
  - injection H1 as <-. cbn [dt_date]. split; [reflexivity|split; [assumption|reflexivity]].
Qed.

Lemma window_by_ordinals today nw occ :
  valid_date today -> valid_date nw -> valid_date occ ->
  toordinal nw = toordinal today + 7 ->
  date_le today occ && date_le occ nw
  = (0 <=? days_until today occ) && (days_until today occ <=? 7).
Proof.
  intros Ht Hn Ho H7. rewrite !date_le_toordinal by assumption.
  unfold days_until. rewrite H7.
  destruct (Z.leb_spec (toordinal today) (toordinal occ)),
           (Z.leb_spec (toordinal occ) (toordinal today + 7)),
           (Z.leb_spec 0 (toordinal occ - toordinal today)),
           (Z.leb_spec (toordinal occ - toordinal today) 7); cbn; reflexivity || lia.
Qed.

(** One turn of the loop: a selected item adds one report at the end of
    the list, any other item leaves the list as it is. *)
Lemma upcoming_body_spec today nw acc item acc' :
  valid_date today -> valid_date nw -> toordinal nw = toordinal today + 7 ->
  upcoming_body today nw acc item = Ok acc' ->
  (selected_within 7 today item = true /\
   exists e, acc' = acc ++ [e] /\ reported today item e)
  \/ (selected_within 7 today item = false /\ acc' = acc).
Proof.
  intros Ht Hn H7. destruct item as [nm r].
  unfold upcoming_body, selected_within, reported, parsed_birthday. cbn [fst snd].
  destruct (birthday r) as [b|];
    [|intros H; injection H as <-; right; split; reflexivity].
  destruct (strptime (value b)) as [dt|] eqn:Es; cbn [rbind]; [|discriminate].
  destruct (replace_year dt (year today)) as [b0|] eqn:E0; cbn [rbind]; [|discriminate].
  match goal with |- context [rbind ?c _] => destruct c as [bty|] eqn:E1 end;
    cbn [rbind]; [|discriminate].
  destruct (body_occurrence today _ dt b0 bty Es E0 E1) as (Hocc & Hv & Hz).
  unfold date_of. rewrite (window_by_ordinals today nw _ Ht Hn Hv H7), Hocc.
  destruct ((0 <=? days_until today (occurrence today (dt_date dt)))
            && (days_until today (occurrence today (dt_date dt)) <=? 7));
    [|intros H; injection H as <-; right; split; reflexivity].
  unfold dt_weekday. rewrite Hocc.
  set (occ := occurrence today (dt_date dt)) in *.
  intros H. left. split; [reflexivity|].
  destruct (Z.eqb_spec (weekday occ) 5) as [W5|W5];
    [|destruct (Z.eqb_spec (weekday occ) 6) as [W6|W6]].
  - destruct (datetime_add_days bty 2) as [rdt|] eqn:Ea; cbn [rbind] in H; [|discriminate].
    injection H as <-. apply datetime_add_days_ok in Ea as (Hrv & Hro & Hrz).
    rewrite Hz in Hrz. cbn [hour minute second microsecond] in Hrz. rewrite Hocc in Hro.
    eexists; split; [reflexivity|]. cbn [upcoming_name upcoming_birthday].
    split; [reflexivity|]. exists (dt_date dt), (dt_date rdt).
    split; [reflexivity|]. split; [exact Hrv|]. split; [now rewrite <- Hrz|].
    cbv zeta; fold occ. split; [|split]; intros; try congruence.
    split; [exact Hro|]. unfold weekday in *. rewrite Hro.
    now apply weekday_after_saturday.
  - destruct (datetime_add_days bty 1) as [rdt|] eqn:Ea; cbn [rbind] in H; [|discriminate].
    injection H as <-. apply datetime_add_days_ok in Ea as (Hrv & Hro & Hrz).
    rewrite Hz in Hrz. cbn [hour minute second microsecond] in Hrz. rewrite Hocc in Hro.
    eexists; split; [reflexivity|]. cbn [upcoming_name upcoming_birthday].
    split; [reflexivity|]. exists (dt_date dt), (dt_date rdt).
    split; [reflexivity|]. split; [exact Hrv|]. split; [now rewrite <- Hrz|].
    cbv zeta; fold occ. split; [|split]; intros; try congruence.
    split; [exact Hro|]. unfold weekday in *. rewrite Hro.
    now apply weekday_after_sunday.
  - cbn [rbind] in H. injection H as <-.
    eexists; split; [reflexivity|]. cbn [upcoming_name upcoming_birthday].
    split; [reflexivity|]. exists (dt_date dt), occ.
    split; [reflexivity|]. split; [now rewrite <- Hocc|].
    split; [now rewrite <- Hocc, <- Hz|].
    cbv zeta; fold occ. split; [|split]; intros; congruence.
Qed.

(** The loop touches no state, and its result is the reports of the
    selected items, in the order of the items. *)
Lemma upcoming_loop_spec today nw :
  valid_date today -> valid_date nw -> toordinal nw = toordinal today + 7 ->
  forall items acc out (s s' : AddressBook),
    for_each items
      (fun upcoming_birthdays item =>
         lift (upcoming_body today nw upcoming_birthdays item)) acc s
    = (Ok out, s') ->
    s' = s /\
    exists sel, out = acc ++ sel /\
                Forall2 (reported today) (filter (selected_within 7 today) items) sel.
Proof.
  intros Ht Hn H7. induction items as [|item items IH]; intros acc out s s' H.
  - cbn in H. injection H as <- <-. split; [reflexivity|].
    exists []. split; [now rewrite app_nil_r | constructor].
  - cbn [for_each] in H. unfold bind at 1, lift at 1 in H.
    destruct (upcoming_body today nw acc item) as [acc1|] eqn:Eb; [|discriminate].
    apply IH in H as (-> & sel & -> & Hsel). split; [reflexivity|].
    cbn [filter].
    destruct (upcoming_body_spec _ _ _ _ _ Ht Hn H7 Eb)
      as [(-> & e & -> & He) | (-> & ->)].
    + exists (e :: sel). split; [now rewrite <- app_assoc | now constructor].
    + exists sel. split; [reflexivity | exact Hsel].
Qed.

Lemma reported_names today items sel :
  Forall2 (reported today) items sel -> map upcoming_name sel = map fst items.
Proof.
  induction 1 as [|item e items sel [Hn _] _ IH]; cbn; [reflexivity|].
  now rewrite Hn, IH.
Qed.

Lemma get_upcoming_birthdays_spec today self out self' :
  valid_date today ->
  get_upcoming_birthdays today self = (Ok out, self') ->
  self' = self /\
  Forall2 (reported today) (filter (selected_within 7 today) (data self)) out.
Proof.
  intros Ht. unfold get_upcoming_birthdays.
  unfold bind at 1, lift at 1.
  destruct (date_add_days today 7) as [nw|] eqn:En; [|discriminate].
  apply date_add_days_ok in En as [Hn H7].
  unfold bind at 1, get at 1. intros H.
  apply (upcoming_loop_spec today nw Ht Hn H7) in H as (-> & sel & -> & Hsel).
  split; [reflexivity | exact Hsel].
Qed.

Lemma replace_year_returns dt y :
  valid_date (dt_date dt) -> MINYEAR <= y <= MAXYEAR ->
  ~ (month (dt_date dt) = 2 /\ day (dt_date dt) = 29) ->
  exists dt', replace_year dt y = Ok dt'.
Proof.
  intros (Hy & Hm & Hd) Hy' Hn. unfold replace_year.
  rewrite check_date_fields_valid; [eexists; reflexivity|].
  unfold valid_date. cbn [year month day].
  split; [exact Hy'|]. split; [exact Hm|].
  now apply (day_exists_every_year (year (dt_date dt))).
Qed.

Lemma datetime_add_days_returns dt k :
  1 <= toordinal (dt_date dt) + k <= MAXORDINAL ->
  exists dt', datetime_add_days dt k = Ok dt'.
Proof.
  intros H. unfold datetime_add_days.
  destruct (date_add_days_in_range _ _ H) as [d ->]. eexists; reflexivity.
Qed.

(** Without a 29 February, a turn of the loop ends normally. *)
Lemma upcoming_body_returns today nw acc item :
  valid_date today -> year today < MAXYEAR ->
  no_leap_day item ->
  exists acc', upcoming_body today nw acc item = Ok acc'.
Proof.
  intros Ht Hy. destruct item as [nm r].
  unfold no_leap_day, upcoming_body, parsed_birthday. cbn [snd].
  destruct (birthday r) as [b|]; [|intros _; eexists; reflexivity].
  intros (bd & Hp & Hn).
  destruct (strptime (value b)) as [dt|] eqn:Es; [|discriminate].
  injection Hp as <-. cbn [rbind].
  destruct (strptime_valid _ _ Es) as [Hv Hz].
  assert (Hty : MINYEAR <= year today <= MAXYEAR) by (destruct Ht as [? _]; lia).
  destruct (replace_year_returns dt (year today) Hv Hty Hn) as [b0 E0].
  rewrite E0. cbn [rbind].
  destruct (replace_year_ok _ _ _ E0) as [Hv0 Hb0].
  assert (Hn0 : ~ (month (dt_date b0) = 2 /\ day (dt_date b0) = 29))
    by (rewrite Hb0; exact Hn).
  assert (E1 : exists bty,
             (if date_lt (date_of b0) today
              then replace_year b0 (year today + 1) else Ok b0) = Ok bty).
  { destruct (date_lt (date_of b0) today); [|eexists; reflexivity].
    apply replace_year_returns; [exact Hv0| |exact Hn0].
    unfold MINYEAR, MAXYEAR in *. lia. }
  destruct E1 as [bty E1]. rewrite E1. cbn [rbind].
  destruct (body_occurrence _ _ _ _ _ Es E0 E1) as (_ & Hvb & _).
  destruct (date_le today (date_of bty) && date_le (date_of bty) nw);
    [|eexists; reflexivity].
  pose proof (toordinal_range _ Hvb) as Hr.
  destruct (weekend_shift_in_range _ Hr) as [Hsat Hsun].
  unfold dt_weekday, weekday in *.
  destruct (Z.eqb_spec ((toordinal (dt_date bty) + 6) mod 7) 5) as [W5|W5];
    [|destruct (Z.eqb_spec ((toordinal (dt_date bty) + 6) mod 7) 6) as [W6|W6]].
  - destruct (datetime_add_days_returns bty 2) as [rdt ->]; [specialize (Hsat W5); lia|].
    eexists; reflexivity.
  - destruct (datetime_add_days_returns bty 1) as [rdt ->]; [specialize (Hsun W6); lia|].
    eexists; reflexivity.
  - eexists; reflexivity.
Qed.

Lemma upcoming_loop_returns today nw :
  valid_date today -> year today < MAXYEAR ->
  forall items acc (s : AddressBook),
    Forall no_leap_day items ->
    exists out,
      for_each items
        (fun upcoming_birthdays item =>
           lift (upcoming_body today nw upcoming_birthdays item)) acc s
      = (Ok out, s).
Proof.
  intros Ht Hy. induction items as [|item items IH]; intros acc s Hall.
  - eexists; reflexivity.
  - inversion Hall as [|? ? Hi Hrest]; subst.
    cbn [for_each]. unfold bind at 1, lift at 1.
    destruct (upcoming_body_returns today nw acc item Ht Hy Hi) as [acc1 ->].
    apply IH, Hrest.
Qed.

Lemma get_upcoming_birthdays_returns today self :
  valid_date today -> year today < MAXYEAR ->
  Forall no_leap_day (data self) ->
  exists out, get_upcoming_birthdays today self = (Ok out, self).
Proof.
  intros Ht Hy Hall. unfold get_upcoming_birthdays.
  unfold bind at 1, lift at 1.
  destruct (date_add_days_in_range today 7) as [nw ->].
  { pose proof (toordinal_year_bounds today Ht) as B.
    pose proof (days_before_year_mono 1 (year today)).
    pose proof (days_before_year_mono (year today + 1) 9999).
    destruct Ht as [? _]. unfold MINYEAR, MAXYEAR, MAXORDINAL in *.
    change (days_before_year 1) with 0 in *.
    change (days_before_year 9999) with 3651694 in *. lia. }
  unfold bind at 1, get at 1.
  now apply upcoming_loop_returns.
Qed.

(** C1 (as stated, refuted): on Wednesday 18 June 2025 Bob, whose
    birthday is 25 June, seven days later, is selected, although that
    day lies outside the window from [today] to [today + 6 days]. *)
Lemma upcoming_window_is_not_6_days :
  let today := mkdate 2025 6 18 in
  map upcoming_name
      match fst (get_upcoming_birthdays today june_book) with
      | Ok out => out
      | Raise _ => []
      end
    = [PyStr.of_string "Ann"; PyStr.of_string "Bob"; PyStr.of_string "Cy";
       PyStr.of_string "Ed"]
  /\ days_until today (mkdate 2025 6 25) = 7
  /\ map fst (filter (selected_within 6 today) (data june_book))
     = [PyStr.of_string "Ann"; PyStr.of_string "Cy"; PyStr.of_string "Ed"].
Proof. cbv zeta. split; [|split]; vm_compute; reflexivity. Qed.

(** C1 (amended): whenever [get_upcoming_birthdays] returns, the names it
    reports are, in the book's order, those of the records with a birthday
    whose occurrence (this year's, or next year's when this year's has
    passed) lies from [today] to [today + 7 days], both ends included: an
    occurrence seven days after [today] is selected, one eight days after
    is not.  It does return when no stored birthday is a 29 February and
    [today] is before the year 9999. *)
Theorem upcoming_window_is_7_days today self :
  valid_date today ->
  (forall out self',
     get_upcoming_birthdays today self = (Ok out, self') ->
     map upcoming_name out
     = map fst (filter (selected_within 7 today) (data self))) /\
  (year today < MAXYEAR -> Forall no_leap_day (data self) ->
   exists out, get_upcoming_birthdays today self = (Ok out, self)).
Proof.
  intros Ht. split.
  - intros out self' H.
    apply (get_upcoming_birthdays_spec today self out self' Ht) in H as [_ H].
    now apply reported_names in H.
  - intros Hy Hall. now apply get_upcoming_birthdays_returns.
Qed.

(** A use of [upcoming_window_is_7_days]: in [june_book] Bob's birthday
    is seven days after [today], Di's eight days after. *)
Lemma upcoming_window_is_7_days_witness :
  valid_date (mkdate 2025 6 18) /\
  map fst (filter (selected_within 7 (mkdate 2025 6 18)) (data june_book))
  = [PyStr.of_string "Ann"; PyStr.of_string "Bob"; PyStr.of_string "Cy";
     PyStr.of_string "Ed"].
Proof.
  assert (Ht : valid_date (mkdate 2025 6 18)) by (vm_compute; intuition discriminate).
  split; [exact Ht|].
  destruct (proj2 (upcoming_window_is_7_days (mkdate 2025 6 18) june_book Ht))
    as [out Hout].
  - reflexivity.
  - repeat constructor; cbn; eexists; (split; [reflexivity|]); intros [? ?]; discriminate.
  - rewrite <- (proj1 (upcoming_window_is_7_days (mkdate 2025 6 18) june_book Ht)
                  out june_book Hout).
    vm_compute in Hout. injection Hout as <-. reflexivity.
Defined.

(** C4: whenever the query returns, it reports exactly the selected
    records, each under its key and with the text of a date [rd]: two days
    after the occurrence, a Monday, when the occurrence is a Saturday; one
    day after it, a Monday, when it is a Sunday; the occurrence itself on
    any other weekday.  The book, and with it every stored birthday, is
    the same after the query as before. *)
Theorem weekend_adjustment today self out self' :
  valid_date today ->
  get_upcoming_birthdays today self = (Ok out, self') ->
  self' = self /\
  Forall2 (reported today) (filter (selected_within 7 today) (data self)) out.
Proof. apply get_upcoming_birthdays_spec. Qed.

(** In [june_book] on 18 June 2025, Cy's occurrence is Saturday 21 June
    and Ed's is Sunday 22 June: both are reported as Monday 23 June. *)
Example june_book_upcoming :
  get_upcoming_birthdays (mkdate 2025 6 18) june_book
  = (Ok [mkUpcoming (PyStr.of_string "Ann") (PyStr.of_string "20.06.2025");
         mkUpcoming (PyStr.of_string "Bob") (PyStr.of_string "25.06.2025");
         mkUpcoming (PyStr.of_string "Cy") (PyStr.of_string "23.06.2025");
         mkUpcoming (PyStr.of_string "Ed") (PyStr.of_string "23.06.2025")],
     june_book)
  /\ weekday (mkdate 2025 6 21) = 5 /\ weekday (mkdate 2025 6 22) = 6
  /\ weekday (mkdate 2025 6 23) = 0.
Proof. repeat split; vm_compute; reflexivity. Qed.

(** A use of [weekend_adjustment] on [june_book]. *)
Lemma weekend_adjustment_witness :
  valid_date (mkdate 2025 6 18) /\
  Forall2 (reported (mkdate 2025 6 18))
    (filter (selected_within 7 (mkdate 2025 6 18)) (data june_book))
    [mkUpcoming (PyStr.of_string "Ann") (PyStr.of_string "20.06.2025");
     mkUpcoming (PyStr.of_string "Bob") (PyStr.of_string "25.06.2025");
     mkUpcoming (PyStr.of_string "Cy") (PyStr.of_string "23.06.2025");
     mkUpcoming (PyStr.of_string "Ed") (PyStr.of_string "23.06.2025")].
Proof.
  assert (Ht : valid_date (mkdate 2025 6 18)) by (vm_compute; intuition discriminate).
  split; [exact Ht|].
  refine (proj2 (weekend_adjustment (mkdate 2025 6 18) june_book _ june_book Ht _)).
  vm_compute. reflexivity.
Defined.

(** C2 (the code raises): "29.02.2000" is accepted by [Birthday], and with
    it stored in the book the query of 18 June 2025 raises the
    [ValueError] of [replace(year=2025)], "day is out of range for
    month", instead of returning a list. *)
Theorem get_upcoming_birthdays_raises_on_leap_day :
  Birthday_init sample_clock sample_clock (PyStr.of_string "29.02.2000")
    = Ok (mkField (PyStr.of_string "29.02.2000")) /\
  data leap_book
    = [(PyStr.of_string "Ann",
        mkRecord (mkField (PyStr.of_string "Ann")) []
                 (Some (mkField (PyStr.of_string "20.06.1990"))));
       (PyStr.of_string "Lea",
        mkRecord (mkField (PyStr.of_string "Lea")) []
                 (Some (mkField (PyStr.of_string "29.02.2000"))))] /\
  get_upcoming_birthdays (mkdate 2025 6 18) leap_book
    = (Raise (ValueError msg_day_out_of_range), leap_book).
Proof. repeat split; vm_compute; reflexivity. Qed.

(* ================================================================== *)
(** * Further properties *)

(** ** [Record]: removing, finding and editing phones *)

Lemma str_eqb_neq a b : PyStr.str_eqb a b = false <-> a <> b.
Proof.
  split.
  - intros H E. apply str_eqb_eq in E. congruence.
  - intros H. destruct (PyStr.str_eqb a b) eqn:E; [|reflexivity].
    apply str_eqb_eq in E. contradiction.
Qed.

(** Where the loop with [break] stops: at the first phone with the value
    sought. *)
Lemma index_of_phone_split phone ps i :
  index_of_phone phone ps = Some i ->
  exists l1 p l2,
    ps = l1 ++ p :: l2 /\ value p = phone /\
    Forall (fun q => value q <> phone) l1 /\
    remove_at i ps = l1 ++ l2 /\
    forall v, set_value_at i v ps = l1 ++ mkField v :: l2.
Proof.
  revert i. induction ps as [|q ps IH]; intros i; cbn; [discriminate|].
  destruct (PyStr.str_eqb (value q) phone) eqn:E.
  - intros H. injection H as <-. apply str_eqb_eq in E.
    exists [], q, ps. cbn. repeat split; auto.
  - destruct (index_of_phone phone ps) as [j|]; cbn; [|discriminate].
    intros H. injection H as <-.
    destruct (IH j eq_refl) as (l1 & p & l2 & -> & Hp & Hl1 & Hr & Hs).
    apply str_eqb_neq in E.
    exists (q :: l1), p, l2. cbn. rewrite Hr. repeat split; auto.
    intros v. now rewrite Hs.
Qed.

Lemma has_phone_false phone r :
  has_phone phone r = false <-> Forall (fun q => value q <> phone) (phones r).
Proof.
  unfold has_phone. induction (phones r) as [|q ps IH]; cbn.
  - split; [constructor|reflexivity].
  - rewrite orb_false_iff, IH, str_eqb_neq. split.
    + intros [? ?]. now constructor.
    + intros H. inversion H. tauto.
Qed.

Lemma remove_phone_unfold phone r :
  remove_phone phone r =
  match index_of_phone phone (phones r) with
  | Some i => (Ok tt, set_phones (remove_at i (phones r)) r)
  | None => (Raise (ValueError (msg_phone_not_found phone)), r)
  end.
Proof.
  unfold remove_phone, bind, get. now destruct (index_of_phone phone (phones r)).
Qed.

Lemma edit_phone_unfold old new r :
  edit_phone old new r =
  match index_of_phone old (phones r) with
  | Some i =>
      if PyStr.str_eqb old new
      then (Raise (ValueError msg_phone_same_as_old), r)
      else if negb (PyStr.isdigit new)
      then (Raise (ValueError (msg_phone_only_digits new)), r)
      else if negb (PyStr.len new =? 10)
      then (Raise (ValueError (msg_phone_10_digits new)), r)
      else (Ok tt, set_phones (set_value_at i new (phones r)) r)
  | None => (Raise (ValueError (msg_phone_not_found old)), r)
  end.
Proof.
  unfold edit_phone, bind, get, raise, put.
  destruct (index_of_phone old (phones r)); [|reflexivity].
  destruct (PyStr.str_eqb old new); [reflexivity|].
  destruct (negb (PyStr.isdigit new)); [reflexivity|].
  now destruct (negb (PyStr.len new =? 10)).
Qed.

Lemma set_phones_same r : set_phones (phones r) r = r.
Proof. now destruct r. Qed.

(** The two cases of [remove_phone]. *)
Lemma remove_phone_cases phone r :
  (has_phone phone r = false ->
   remove_phone phone r = (Raise (ValueError (msg_phone_not_found phone)), r)) /\
  (has_phone phone r = true ->
   exists l1 p l2,
     phones r = l1 ++ p :: l2 /\ value p = phone /\
     Forall (fun q => value q <> phone) l1 /\
     remove_phone phone r = (Ok tt, mkRecord (name r) (l1 ++ l2) (birthday r))).
Proof.
  rewrite remove_phone_unfold, index_of_phone_has_phone.
  destruct (index_of_phone phone (phones r)) as [i|] eqn:E; split;
    try discriminate; try reflexivity.
  intros _. destruct (index_of_phone_split _ _ _ E) as (l1 & p & l2 & Hps & Hp & Hl & Hr & _).
  exists l1, p, l2. rewrite Hr. repeat split; assumption.
Qed.

(** X1: [remove_phone] of a value that no stored phone has raises
    NotFound and leaves the record as it was; otherwise it takes out the
    first phone with that value and nothing else: the phones before and
    after it keep their order, name and birthday are untouched. *)
Theorem remove_phone_spec phone r :
  (has_phone phone r = false ->
   remove_phone phone r = (Raise (ValueError (msg_phone_not_found phone)), r)) /\
  (has_phone phone r = true ->
   exists l1 p l2,
     phones r = l1 ++ p :: l2 /\ value p = phone /\
     Forall (fun q => value q <> phone) l1 /\
     remove_phone phone r = (Ok tt, mkRecord (name r) (l1 ++ l2) (birthday r))).
Proof. apply remove_phone_cases. Qed.

Lemma remove_phone_spec_witness :
  let r := mkRecord (Name_init (PyStr.of_string "Ann"))
             [mkField (PyStr.of_string "0501234567");
              mkField (PyStr.of_string "0679876543");
              mkField (PyStr.of_string "0501234567")] None in
  remove_phone (PyStr.of_string "0679876543") r
  = (Ok tt, mkRecord (Name_init (PyStr.of_string "Ann"))
              [mkField (PyStr.of_string "0501234567");
               mkField (PyStr.of_string "0501234567")] None)
  /\ remove_phone (PyStr.of_string "0000000000") r
     = (Raise (ValueError (msg_phone_not_found (PyStr.of_string "0000000000"))), r).
Proof.
  cbv zeta. split.
  - reflexivity.
  - apply (remove_phone_spec (PyStr.of_string "0000000000")). reflexivity.
Defined.

(** X2: [add_phone] of a valid number followed by [remove_phone] of the
    same number gives back the record exactly when the number was not
    stored before; when it was, the earlier phone is the one removed and
    the new one stays at the end. *)
Theorem add_then_remove_phone phone r :
  PyStr.isdigit phone = true -> PyStr.len phone = 10 ->
  exists r1, add_phone phone r = (Ok tt, r1) /\
    (has_phone phone r = false -> remove_phone phone r1 = (Ok tt, r)) /\
    (has_phone phone r = true ->
     exists l1 p l2,
       phones r = l1 ++ p :: l2 /\ value p = phone /\
       Forall (fun q => value q <> phone) l1 /\
       remove_phone phone r1
       = (Ok tt, mkRecord (name r) (l1 ++ l2 ++ [mkField phone]) (birthday r))).
Proof.
  intros Hd Hl. rewrite add_phone_unfold.
  rewrite (proj2 (Phone_init_ok_iff phone) (conj Hd Hl)).
  eexists; split; [reflexivity|]. split.
  - intros Hno. apply has_phone_false in Hno.
    rewrite remove_phone_unfold. cbn [phones set_phones name birthday].
    assert (Hi : index_of_phone phone (phones r ++ [mkField phone])
                 = Some (List.length (phones r))
                 /\ remove_at (List.length (phones r)) (phones r ++ [mkField phone])
                    = phones r).
    { induction Hno as [|q ps Hq _ IH]; cbn.
      - rewrite str_eqb_refl. split; reflexivity.
      - apply str_eqb_neq in Hq. rewrite Hq. destruct IH as [Hi1 Hi2].
        unfold Phone in *. rewrite Hi1. cbn. rewrite Hi2. split; reflexivity. }
    destruct Hi as [Hi1 Hi2]. unfold Phone in *. rewrite Hi1, Hi2. now destruct r.
  - intros Hyes. destruct (proj2 (remove_phone_cases phone r) Hyes)
      as (l1 & p & l2 & Hps & Hp & Hl1 & _).
    exists l1, p, l2. repeat split; try assumption.
    rewrite remove_phone_unfold. cbn [phones set_phones name birthday].
    rewrite Hps.
    assert (Hi : exists i, index_of_phone phone ((l1 ++ p :: l2) ++ [mkField phone]) = Some i
                 /\ remove_at i ((l1 ++ p :: l2) ++ [mkField phone])
                    = l1 ++ l2 ++ [mkField phone]).
    { clear Hps. induction Hl1 as [|q ps Hq _ IH]; cbn.
      - rewrite Hp, str_eqb_refl. eexists; split; reflexivity.
      - apply str_eqb_neq in Hq. rewrite Hq. destruct IH as (i & Hi1 & Hi2).
        exists (S i). unfold Phone in *. rewrite Hi1. cbn. rewrite Hi2.
        split; reflexivity. }
    destruct Hi as (i & Hi1 & Hi2). unfold Phone in *. rewrite Hi1, Hi2. reflexivity.
Qed.

Lemma add_then_remove_phone_witness :
  let r := mkRecord (Name_init (PyStr.of_string "Ann"))
             [mkField (PyStr.of_string "0501234567")] None in
  remove_phone (PyStr.of_string "0679876543")
    (snd (add_phone (PyStr.of_string "0679876543") r)) = (Ok tt, r).
Proof.
  cbv zeta.
  destruct (add_then_remove_phone (PyStr.of_string "0679876543")
              (mkRecord (Name_init (PyStr.of_string "Ann"))
                 [mkField (PyStr.of_string "0501234567")] None)
              eq_refl eq_refl) as (r1 & H1 & H2 & _).
  injection H1 as <-. apply H2. reflexivity.
Defined.

(** X3: [find_phone] never raises and changes nothing; it returns the
    first stored phone with the value sought, and [None] exactly when no
    stored phone has it.  After a successful [add_phone(p)],
    [find_phone(p)] finds a phone. *)
Theorem find_phone_spec phone r :
  exists found, find_phone phone r = (Ok found, r) /\
    (found = None <-> has_phone phone r = false) /\
    (forall p, found = Some p ->
       exists l1 l2, phones r = l1 ++ p :: l2 /\ value p = phone /\
                     Forall (fun q => value q <> phone) l1) /\
    (forall r1, add_phone phone r = (Ok tt, r1) ->
       fst (find_phone phone r1) = Ok (Some (mkField phone))).
Proof.
  unfold find_phone, bind, get, ret. eexists; split; [reflexivity|].
  split; [|split].
  - unfold has_phone. induction (phones r) as [|q ps IH]; cbn; [tauto|].
    destruct (PyStr.str_eqb (value q) phone); cbn; [split; discriminate|exact IH].
  - induction (phones r) as [|q ps IH]; cbn; [discriminate|].
    destruct (PyStr.str_eqb (value q) phone) eqn:E.
    + intros p H. injection H as <-. apply str_eqb_eq in E.
      exists [], ps. repeat split; auto.
    + intros p H. destruct (IH p H) as (l1 & l2 & -> & Hp & Hl).
      apply str_eqb_neq in E. exists (q :: l1), l2. repeat split; auto.
  - intros r1. rewrite add_phone_unfold.
    destruct (Phone_init phone) as [p|] eqn:Ep; [|discriminate].
    apply Phone_init_value in Ep as ->. intros H. injection H as <-.
    cbn [fst phones set_phones].
    induction (phones r) as [|q ps IH]; cbn.
    + now rewrite str_eqb_refl.
    + destruct (PyStr.str_eqb (value q) phone) eqn:E; [|exact IH].
      apply str_eqb_eq in E. destruct q as [v]. cbn in E. now subst v.
Qed.

Lemma find_phone_spec_witness :
  fst (find_phone (PyStr.of_string "0679876543")
         (snd (add_phone (PyStr.of_string "0679876543")
                 (Record_init (PyStr.of_string "Ann")))))
  = Ok (Some (mkField (PyStr.of_string "0679876543"))).
Proof.
  destruct (find_phone_spec (PyStr.of_string "0679876543")
              (Record_init (PyStr.of_string "Ann"))) as (f & _ & _ & _ & H).
  apply (H _ eq_refl).
Defined.

(** X4: [edit_phone] changes the record only when it ends normally.  It
    raises NotFound when no stored phone has the old value (whatever the
    new one is), InvalidArgument when the old value is stored and the new
    one equals it, InvalidFormat when the old value is stored and the
    different new one is not ten digits. *)
Theorem edit_phone_failure old new r e r' :
  edit_phone old new r = (Raise e, r') ->
  r' = r /\
  kind_of e = Some (if negb (has_phone old r) then NotFound
                    else if PyStr.str_eqb old new then InvalidArgument
                    else InvalidFormat) /\
  (has_phone old r = false \/ old = new
   \/ PyStr.isdigit new = false \/ PyStr.len new <> 10).
Proof.
  rewrite edit_phone_unfold, index_of_phone_has_phone.
  destruct (index_of_phone old (phones r)) as [i|]; cbn [negb].
  - destruct (PyStr.str_eqb old new) eqn:Eq.
    + apply str_eqb_eq in Eq. intros H. injection H as <- <-. auto.
    + destruct (PyStr.isdigit new); cbn [negb].
      * destruct (Z.eqb_spec (PyStr.len new) 10); cbn [negb]; [discriminate|].
        intros H. injection H as <- <-. auto 6.
      * intros H. injection H as <- <-. auto 6.
  - intros H. injection H as <- <-. auto.
Qed.

Lemma edit_phone_failure_witness :
  let r := mkRecord (Name_init (PyStr.of_string "Ann"))
             [mkField (PyStr.of_string "0501234567")] None in
  kind_of (ValueError (msg_phone_10_digits (PyStr.of_string "123"))) = Some InvalidFormat.
Proof.
  cbv zeta.
  apply (edit_phone_failure (PyStr.of_string "0501234567") (PyStr.of_string "123")
           (mkRecord (Name_init (PyStr.of_string "Ann"))
              [mkField (PyStr.of_string "0501234567")] None) _ _ eq_refl).
Defined.

(** X5: when the old value is stored, the new one differs from it and is
    ten digits, [edit_phone] ends normally and rewrites the first phone
    with the old value in its place; every other phone, the order, the
    name and the birthday are as before. *)
Theorem edit_phone_success old new r :
  has_phone old r = true -> old <> new ->
  PyStr.isdigit new = true -> PyStr.len new = 10 ->
  exists l1 p l2,
    phones r = l1 ++ p :: l2 /\ value p = old /\
    Forall (fun q => value q <> old) l1 /\
    edit_phone old new r
    = (Ok tt, mkRecord (name r) (l1 ++ mkField new :: l2) (birthday r)).
Proof.
  intros Hhas Hne Hd Hl. rewrite index_of_phone_has_phone in Hhas.
  rewrite edit_phone_unfold.
  destruct (index_of_phone old (phones r)) as [i|] eqn:E; [|discriminate].
  destruct (index_of_phone_split _ _ _ E) as (l1 & p & l2 & Hps & Hp & Hl1 & _ & Hs).
  exists l1, p, l2. rewrite (proj2 (str_eqb_neq old new) Hne), Hd, Hl, Hs.
  repeat split; assumption.
Qed.

Lemma edit_phone_success_witness :
  let r := mkRecord (Name_init (PyStr.of_string "Ann"))
             [mkField (PyStr.of_string "0501234567");
              mkField (PyStr.of_string "0679876543")] None in
  exists l1 p l2,
    phones r = l1 ++ p :: l2 /\ value p = PyStr.of_string "0679876543" /\
    Forall (fun q => value q <> PyStr.of_string "0679876543") l1 /\
    edit_phone (PyStr.of_string "0679876543") (PyStr.of_string "0930000000") r
    = (Ok tt, mkRecord (name r) (l1 ++ mkField (PyStr.of_string "0930000000") :: l2)
                (birthday r)).
Proof.
  cbv zeta.
  apply (edit_phone_success (PyStr.of_string "0679876543") (PyStr.of_string "0930000000"));
    [reflexivity | intros H; vm_compute in H; discriminate | reflexivity | reflexivity].
Defined.

(** ** [AddressBook]: how insertion, lookup and deletion compose *)

Lemma dict_get_set_other k k' v d :
  k' <> k -> dict_get k' (dict_set k v d) = dict_get k' d.
Proof.
  intros Hne. induction d as [|[k0 v0] d IH]; cbn.
  - now rewrite (proj2 (str_eqb_neq k k')) by congruence.
  - destruct (PyStr.str_eqb k0 k) eqn:E; cbn.
    + apply str_eqb_eq in E as ->.
      now rewrite (proj2 (str_eqb_neq k k')) by congruence.
    + destruct (PyStr.str_eqb k0 k'); [reflexivity|exact IH].
Qed.

Lemma dict_get_none k d : dict_get k d = None <-> ~ In k (map fst d).
Proof.
  induction d as [|[k0 v0] d IH]; cbn; [tauto|].
  destruct (PyStr.str_eqb k0 k) eqn:E.
  - apply str_eqb_eq in E as ->. split; [discriminate|tauto].
  - apply str_eqb_neq in E. rewrite IH. tauto.
Qed.

Lemma dict_set_keys k v d :
  map fst (dict_set k v d)
  = if dict_contains k d then map fst d else map fst d ++ [k].
Proof.
  unfold dict_contains. induction d as [|[k0 v0] d IH]; cbn; [reflexivity|].
  destruct (PyStr.str_eqb k0 k) eqn:E; cbn; [reflexivity|].
  rewrite IH. now destruct (dict_get k d).
Qed.

Lemma dict_del_keys k d :
  NoDup (map fst d) ->
  map fst (dict_del k d) = filter (fun k' => negb (PyStr.str_eqb k' k)) (map fst d).
Proof.
  induction d as [|[k0 v0] d IH]; cbn; [reflexivity|].
  intros Hnd. inversion Hnd as [|? ? Hnotin Hnd']; subst.
  destruct (PyStr.str_eqb k0 k) eqn:E; cbn.
  - apply str_eqb_eq in E as ->. symmetry.
    clear IH Hnd Hnd'. induction (map fst d) as [|k1 ks IHk]; cbn; [reflexivity|].
    cbn in Hnotin.
    rewrite (proj2 (str_eqb_neq k1 k)) by tauto. cbn. f_equal. apply IHk. tauto.
  - f_equal. now apply IH.
Qed.

Lemma dict_get_del_other k k' d :
  k' <> k -> dict_get k' (dict_del k d) = dict_get k' d.
Proof.
  intros Hne. induction d as [|[k0 v0] d IH]; cbn; [reflexivity|].
  destruct (PyStr.str_eqb k0 k) eqn:E; cbn.
  - apply str_eqb_eq in E as ->.
    now rewrite (proj2 (str_eqb_neq k k')) by congruence.
  - destruct (PyStr.str_eqb k0 k'); [reflexivity|exact IH].
Qed.

Lemma filter_In_neq k ks :
  ~ In k (filter (fun k' => negb (PyStr.str_eqb k' k)) ks).
Proof.
  rewrite filter_In. intros [_ H]. now rewrite str_eqb_refl in H.
Qed.

Lemma NoDup_filter {A} (f : A -> bool) l : NoDup l -> NoDup (filter f l).
Proof.
  induction 1 as [|x l Hx _ IH]; cbn; [constructor|].
  destruct (f x); [|exact IH]. constructor; [|exact IH].
  rewrite filter_In. tauto.
Qed.

(** X6: after [add_record(r)], [find] of the record's name value returns
    [r] and [find] of any other name returns what it returned before; a
    name that was already a key keeps its place in the iteration order,
    a new one goes last. *)
Theorem add_record_then_find r book :
  let book' := snd (add_record r book) in
  fst (add_record r book) = Ok tt /\
  fst (find (value (name r)) book') = Ok (Some r) /\
  (forall k, k <> value (name r) -> fst (find k book') = fst (find k book)) /\
  keys book' = (if dict_contains (value (name r)) (data book)
                then keys book else keys book ++ [value (name r)]).
Proof.
  cbv zeta. rewrite add_record_unfold. cbn [fst snd]. rewrite !find_unfold.
  cbn [fst data]. split; [reflexivity|]. split; [f_equal; apply dict_get_set_same|].
  split.
  - intros k Hk. rewrite !find_unfold. cbn [fst data]. now rewrite dict_get_set_other.
  - unfold keys. cbn [data]. apply dict_set_keys.
Qed.

Lemma add_record_then_find_witness :
  fst (find (PyStr.of_string "Bob")
         (snd (add_record (Record_init (PyStr.of_string "Ann"))
                 (snd (add_record (Record_init (PyStr.of_string "Bob")) empty_book)))))
  = Ok (Some (Record_init (PyStr.of_string "Bob"))).
Proof.
  rewrite (proj1 (proj2 (proj2 (add_record_then_find
             (Record_init (PyStr.of_string "Ann"))
             (snd (add_record (Record_init (PyStr.of_string "Bob")) empty_book)))))
             (PyStr.of_string "Bob")).
  - reflexivity.
  - intros H. vm_compute in H. discriminate.
Defined.

(** The two cases of [delete]. *)
Lemma delete_cases k book :
  unique_keys book ->
  (dict_contains k (data book) = false ->
   delete k book = (Raise (KeyError (msg_record_not_found k)), book)) /\
  (dict_contains k (data book) = true ->
   exists book',
     delete k book = (Ok tt, book') /\
     fst (find k book') = Ok None /\
     (forall k', k' <> k -> fst (find k' book') = fst (find k' book)) /\
     keys book' = filter (fun k' => negb (PyStr.str_eqb k' k)) (keys book) /\
     unique_keys book').
Proof.
  intros Hu. rewrite delete_unfold. split; intros ->; [reflexivity|].
  eexists; split; [reflexivity|]. rewrite !find_unfold. cbn [fst data].
  assert (Hk : map fst (dict_del k (data book))
               = filter (fun k' => negb (PyStr.str_eqb k' k)) (map fst (data book)))
    by now apply dict_del_keys.
  split; [|split; [|split]].
  - f_equal. apply dict_get_none. rewrite Hk. apply filter_In_neq.
  - intros k' Hne. rewrite !find_unfold. cbn [fst data]. now rewrite dict_get_del_other.
  - exact Hk.
  - unfold unique_keys. cbn [data]. rewrite Hk. now apply NoDup_filter.
Qed.

(** X7: [delete] of a name that is not a key raises a [KeyError] (NotFound)
    and leaves the book as it was.  [delete] of a key ends normally; then
    [find] of that name returns [None], [find] of any other name returns
    what it returned before, and the other keys keep their order. *)
Theorem delete_spec k book :
  unique_keys book ->
  (dict_contains k (data book) = false ->
   delete k book = (Raise (KeyError (msg_record_not_found k)), book)) /\
  (dict_contains k (data book) = true ->
   exists book',
     delete k book = (Ok tt, book') /\
     fst (find k book') = Ok None /\
     (forall k', k' <> k -> fst (find k' book') = fst (find k' book)) /\
     keys book' = filter (fun k' => negb (PyStr.str_eqb k' k)) (keys book) /\
     unique_keys book').
Proof. apply delete_cases. Qed.

Lemma delete_spec_witness :
  let book := snd (add_record (Record_init (PyStr.of_string "Ann"))
                     (snd (add_record (Record_init (PyStr.of_string "Bob")) empty_book))) in
  delete (PyStr.of_string "Cy") book
  = (Raise (KeyError (msg_record_not_found (PyStr.of_string "Cy"))), book).
Proof.
  cbv zeta. apply delete_spec.
  - unfold unique_keys. vm_compute.
    repeat constructor; cbn; intuition discriminate.
  - reflexivity.
Defined.

Lemma add_record_unique r book :
  unique_keys book -> unique_keys (snd (add_record r book)).
Proof.
  unfold unique_keys. rewrite add_record_unfold. cbn [snd data].
  rewrite dict_set_keys. intros Hu.
  destruct (dict_contains (value (name r)) (data book)) eqn:E; [exact Hu|].
  unfold dict_contains in E.
  destruct (dict_get (value (name r)) (data book)) eqn:G; [discriminate|].
  apply dict_get_none in G.
  apply NoDup_rev in Hu. rewrite <- (rev_involutive (_ ++ _)).
  apply NoDup_rev. rewrite rev_app_distr. cbn. constructor; [|exact Hu].
  now rewrite <- in_rev.
Qed.

Lemma run_operation_unique book o :
  unique_keys book -> unique_keys (run_operation book o).
Proof.
  intros Hu. destruct o as [r|n|n]; cbn [run_operation].
  - now apply add_record_unique.
  - exact Hu.
  - destruct (dict_contains n (data book)) eqn:E.
    + destruct (proj2 (delete_cases n book Hu) E) as (b' & -> & _ & _ & _ & Hu'). exact Hu'.
    + now rewrite (proj1 (delete_cases n book Hu) E).
Qed.

(** X8: in every book reached from the empty one by [add_record], [find]
    and [delete], no name is a key twice, and the number of records is at
    most the number of [add_record] calls. *)
Theorem book_keys_unique ops :
  unique_keys (run_operations ops empty_book) /\
  (List.length (data (run_operations ops empty_book))
   <= List.length (filter (fun o => match o with op_add_record _ => true | _ => false end) ops))%nat.
Proof.
  assert (G : forall book,
             unique_keys book ->
             unique_keys (run_operations ops book) /\
             (List.length (data (run_operations ops book))
              <= List.length (data book)
                 + List.length (filter (fun o => match o with op_add_record _ => true
                                                       | _ => false end) ops))%nat).
  { induction ops as [|o ops IH]; intros book Hu; cbn [run_operations fold_left filter].
    - split; [exact Hu|cbn; lia].
    - destruct (IH (run_operation book o) (run_operation_unique book o Hu)) as [H1 H2].
      split; [exact H1|]. unfold run_operations in H2.
      assert (Hlen : (List.length (data (run_operation book o))
                      <= List.length (data book)
                         + (if match o with op_add_record _ => true | _ => false end
                            then 1 else 0))%nat).
      { destruct o as [r|n|n]; cbn [run_operation].
        - rewrite add_record_unfold. cbn [snd data].
          rewrite <- (length_map fst (dict_set _ _ _)), dict_set_keys.
          destruct (dict_contains _ _); rewrite ?length_app, length_map; cbn; lia.
        - cbn. lia.
        - rewrite delete_unfold. destruct (dict_contains n (data book)); cbn [snd data]; [|lia].
          clear. induction (data book) as [|[k0 v0] d IHd]; cbn; [lia|].
          destruct (PyStr.str_eqb k0 n); cbn; lia. }
      destruct o; cbn [filter List.length] in *; lia. }
  destruct (G empty_book) as [H1 H2]; [constructor|].
  split; [exact H1|exact H2].
Qed.

(** ** [strftime] and [strptime] are inverse on real dates *)

Lemma digit_char_decimal v :
  0 <= v <= 9 -> PyStr.decimal_value (PyStr.digit_char v) = Some (Z.to_N v).
Proof. intros Hv. digit_cases v H; reflexivity. Qed.

Lemma digit_char_isdecimal v : 0 <= v <= 9 -> PyStr.isdecimal (PyStr.digit_char v) = true.
Proof. intros Hv. unfold PyStr.isdecimal. now rewrite digit_char_decimal. Qed.

Lemma digit_char_not_space v : 0 <= v <= 9 -> PyStr.isspace (PyStr.digit_char v) = false.
Proof. intros Hv. digit_cases v H; reflexivity. Qed.

Lemma digit_char_not_dot v : 0 <= v <= 9 -> is_char "." (PyStr.digit_char v) = false.
Proof. intros Hv. digit_cases v H; reflexivity. Qed.

Lemma digit_of_mod n : 0 <= n mod 10 <= 9.
Proof. pose proof (Z.mod_pos_bound n 10). lia. Qed.

(** [int] of a run of ASCII digits without blanks is its decimal value. *)
Lemma int_two_digits n : 0 <= n <= 99 -> PyStr.int (two_digits n) = Ok n.
Proof.
  intros Hn. unfold PyStr.int, PyStr.strip, PyStr.rstrip, two_digits.
  cbn [PyStr.lstrip rev app].
  rewrite !digit_char_not_space by apply digit_of_mod.
  cbn [rev app PyStr.lstrip].
  rewrite !digit_char_not_space by apply digit_of_mod.
  cbn [rev app PyStr.int_digits].
  rewrite !digit_char_decimal by apply digit_of_mod.
  rewrite !Z2N.id by apply digit_of_mod.
  f_equal. Z.div_mod_to_equations. lia.
Qed.

Lemma int_four_digits n : 0 <= n <= 9999 -> PyStr.int (four_digits n) = Ok n.
Proof.
  intros Hn. unfold PyStr.int, PyStr.strip, PyStr.rstrip, four_digits.
  cbn [PyStr.lstrip rev app].
  rewrite !digit_char_not_space by apply digit_of_mod.
  cbn [rev app PyStr.lstrip].
  rewrite !digit_char_not_space by apply digit_of_mod.
  cbn [rev app PyStr.int_digits].
  rewrite !digit_char_decimal by apply digit_of_mod.
  rewrite !Z2N.id by apply digit_of_mod.
  f_equal. Z.div_mod_to_equations. lia.
Qed.

(** The first alternative of [%d] that matches the two digits of a day
    takes both. *)
Lemma alts_d_two_digits d rest :
  1 <= d <= 31 ->
  exists tl, alts_d (two_digits d ++ rest) = (two_digits d, rest) :: tl.
Proof. intros Hd. day_cases d H; vm_compute; eexists; reflexivity. Qed.

Lemma alts_m_two_digits m rest :
  1 <= m <= 12 ->
  exists tl, alts_m (two_digits m ++ rest) = (two_digits m, rest) :: tl.
Proof. intros Hm. month_cases m H; vm_compute; eexists; reflexivity. Qed.

Lemma alts_Y_four_digits y rest :
  alts_Y (four_digits y ++ rest) = [(four_digits y, rest)].
Proof.
  unfold four_digits, alts_Y. cbn [app].
  now rewrite !digit_char_isdecimal by apply digit_of_mod.
Qed.

Lemma format_regex_matches_strftime dt :
  valid_date (dt_date dt) ->
  exists tl,
    format_regex_matches (strftime dt)
    = (two_digits (day (dt_date dt)), two_digits (month (dt_date dt)),
       four_digits (year (dt_date dt)), []) :: tl.
Proof.
  intros (Hy & Hm & Hd). unfold strftime, format_regex_matches.
  pose proof (days_in_month_pos (year (dt_date dt)) _ Hm) as Hdim.
  destruct (alts_d_two_digits (day (dt_date dt))
              ([chr "."] ++ two_digits (month (dt_date dt)) ++ [chr "."]
               ++ four_digits (year (dt_date dt)))) as [tl1 ->]; [lia|].
  cbn [flat_map app lit_dot]. change (is_char "." (chr ".")) with true. cbn iota.
  cbn [flat_map app].
  destruct (alts_m_two_digits (month (dt_date dt))
              (chr "." :: four_digits (year (dt_date dt)))) as [tl2 E2]; [lia|].
  cbn [app] in E2. rewrite E2.
  cbn [flat_map app lit_dot]. change (is_char "." (chr ".")) with true. cbn iota.
  cbn [flat_map app].
  pose proof (alts_Y_four_digits (year (dt_date dt)) []) as EY.
  rewrite app_nil_r in EY. rewrite EY.
  cbn [map app]. eexists; reflexivity.
Qed.

(** Reading back what [strftime] wrote. *)
Lemma strptime_of_strftime d :
  valid_date d ->
  strptime (strftime (mkdatetime d 0 0 0 0)) = Ok (mkdatetime d 0 0 0 0).
Proof.
  intros Hv. unfold strptime.
  destruct (format_regex_matches_strftime (mkdatetime d 0 0 0 0) Hv) as [tl ->].
  cbn [dt_date]. destruct Hv as (Hy & Hm & Hd).
  pose proof (days_in_month_pos (year d) _ Hm) as Hdim.
  unfold MINYEAR, MAXYEAR in Hy.
  rewrite int_four_digits, !int_two_digits by lia. cbn [rbind].
  rewrite check_date_fields_valid by (now destruct d).
  now destruct d.
Qed.

(** X9: a real date written by [strftime("%d.%m.%Y")] is read back by
    [strptime] as the same date at midnight. *)
Theorem strptime_strftime d :
  valid_date d ->
  strptime (strftime (mkdatetime d 0 0 0 0)) = Ok (mkdatetime d 0 0 0 0).
Proof. apply strptime_of_strftime. Qed.

Lemma strptime_strftime_witness :
  strptime (PyStr.of_string "29.02.2024") = Ok (mkdatetime (mkdate 2024 2 29) 0 0 0 0).
Proof.
  apply (strptime_strftime (mkdate 2024 2 29)). vm_compute. intuition discriminate.
Defined.

(** ** [Birthday]: what is accepted, and what an accepted text is *)

Lemma is_char_eq a c : is_char a c = true -> c = chr a.
Proof. unfold is_char. apply N.eqb_eq. Qed.

Lemma alts_d_shape s d r :
  In (d, r) (alts_d s) -> s = d ++ r /\ (1 <= List.length d <= 2)%nat.
Proof.
  unfold alts_d. destruct s as [|c0 [|c1 rest]]; [intros []| |].
  - destruct (in_chars "1" "9" c0); [|intros []].
    intros [H|[]]. injection H as <- <-. cbn. split; [reflexivity|lia].
  - rewrite !in_app_iff.
    repeat match goal with
           | |- context [if ?b then _ else _] => destruct b
           end;
      cbn [In]; intros H; decompose [or] H; try contradiction;
      match goal with
      | E : (_, _) = (_, _) |- _ => injection E as <- <-
      end; cbn; (split; [reflexivity|lia]).
Qed.

Lemma alts_m_shape s m r :
  In (m, r) (alts_m s) -> s = m ++ r /\ (1 <= List.length m <= 2)%nat.
Proof.
  unfold alts_m. destruct s as [|c0 [|c1 rest]]; [intros []| |].
  - destruct (in_chars "1" "9" c0); [|intros []].
    intros [H|[]]. injection H as <- <-. cbn. split; [reflexivity|lia].
  - rewrite !in_app_iff.
    repeat match goal with
           | |- context [if ?b then _ else _] => destruct b
           end;
      cbn [In]; intros H; decompose [or] H; try contradiction;
      match goal with
      | E : (_, _) = (_, _) |- _ => injection E as <- <-
      end; cbn; (split; [reflexivity|lia]).
Qed.

Lemma alts_Y_shape s y r :
  In (y, r) (alts_Y s) -> s = y ++ r /\ List.length y = 4%nat.
Proof.
  unfold alts_Y. destruct s as [|y1 [|y2 [|y3 [|y4 rest]]]]; try (intros []).
  destruct (_ && _); [|intros []].
  intros [H|[]]. injection H as <- <-. split; reflexivity.
Qed.

Lemma lit_dot_shape s r : In r (lit_dot s) -> s = chr "." :: r.
Proof.
  unfold lit_dot. destruct s as [|c rest]; [intros []|].
  destruct (is_char "." c) eqn:E; [|intros []].
  intros [<-|[]]. now rewrite (is_char_eq _ _ E).
Qed.

(** Every match of the format takes a day of one or two characters, a
    dot, a month of one or two characters, a dot and a year of four. *)
Lemma format_regex_matches_shape s d m y rest :
  In (d, m, y, rest) (format_regex_matches s) ->
  s = d ++ chr "." :: m ++ chr "." :: y ++ rest /\
  (1 <= List.length d <= 2)%nat /\ (1 <= List.length m <= 2)%nat /\
  List.length y = 4%nat.
Proof.
  unfold format_regex_matches. rewrite in_flat_map.
  intros ([d' r1] & H1 & H). apply alts_d_shape in H1 as [-> Hd].
  rewrite in_flat_map in H. destruct H as (r2 & H2 & H).
  apply lit_dot_shape in H2 as ->.
  rewrite in_flat_map in H. destruct H as ([m' r3] & H3 & H).
  apply alts_m_shape in H3 as [-> Hm].
  rewrite in_flat_map in H. destruct H as (r4 & H4 & H).
  apply lit_dot_shape in H4 as ->.
  rewrite in_map_iff in H. destruct H as ([y' rest'] & E & H5).
  injection E as <- <- <- <-.
  apply alts_Y_shape in H5 as [-> Hy]. repeat split; assumption || lia.
Qed.

(** A text that [strptime] accepts has between eight and ten characters. *)
Lemma strptime_length s dt :
  strptime s = Ok dt -> (8 <= List.length s <= 10)%nat.
Proof.
  unfold strptime.
  destruct (format_regex_matches s) as [|[[[d m] y] rest] tl] eqn:E; [discriminate|].
  destruct rest; [|discriminate]. intros _.
  destruct (format_regex_matches_shape s d m y []) as (-> & Hd & Hm & Hy).
  { rewrite E. now left. }
  rewrite length_app. cbn [List.length]. rewrite length_app. cbn [List.length].
  rewrite length_app. cbn [List.length]. lia.
Qed.

Lemma date_pattern_match_length v :
  date_pattern_match v = true ->
  List.length v = 10%nat \/ List.length v = 11%nat.
Proof.
  do 10 (destruct v as [|? v]; [discriminate|]).
  destruct v as [|? v]; [now left|].
  destruct v as [|? v]; [now right|]. discriminate.
Qed.

Lemma date_pattern_match_strftime dt :
  valid_date (dt_date dt) -> date_pattern_match (strftime dt) = true.
Proof.
  intros _. unfold strftime, two_digits, four_digits, date_pattern_match.
  cbn [app forallb].
  rewrite !digit_char_isdecimal by apply digit_of_mod. reflexivity.
Qed.

Lemma int_digits_raises s : forall a e,
  PyStr.int_digits a s = Raise e -> exists m, e = ValueError m.
Proof.
  induction s as [|c s IH]; intros a e; cbn [PyStr.int_digits]; [discriminate|].
  destruct (PyStr.decimal_value c); [apply IH|].
  intros H. injection H as <-. eexists; reflexivity.
Qed.

Lemma int_raises s e : PyStr.int s = Raise e -> exists m, e = ValueError m.
Proof.
  unfold PyStr.int. destruct (PyStr.strip s).
  - intros H. injection H as <-. eexists; reflexivity.
  - apply int_digits_raises.
Qed.

Lemma check_date_fields_raises y m d e :
  check_date_fields y m d = Raise e -> exists msg, e = ValueError msg.
Proof.
  unfold check_date_fields.
  repeat match goal with
         | |- context [if ?b then _ else _] => destruct b
         end; intros H; try discriminate; injection H as <-; eexists; reflexivity.
Qed.

(** [strptime] raises nothing but [ValueError]. *)
Lemma strptime_raises s e : strptime s = Raise e -> exists m, e = ValueError m.
Proof.
  unfold strptime.
  destruct (format_regex_matches s) as [|[[[d m] y] rest] tl];
    [intros H; injection H as <-; eexists; reflexivity|].
  destruct rest; [|intros H; injection H as <-; eexists; reflexivity].
  destruct (PyStr.int y) eqn:Ey; cbn [rbind];
    [|intros H; injection H as <-; now apply int_raises in Ey].
  destruct (PyStr.int m) eqn:Em; cbn [rbind];
    [|intros H; injection H as <-; now apply int_raises in Em].
  destruct (PyStr.int d) eqn:Ed; cbn [rbind];
    [|intros H; injection H as <-; now apply int_raises in Ed].
  destruct (check_date_fields _ _ _) eqn:Ec; cbn [rbind]; [discriminate|].
  intros H; injection H as <-. now apply check_date_fields_raises in Ec.
Qed.

Lemma Birthday_init_unfold now_year now_cmp raw :
  Birthday_init now_year now_cmp raw =
  if negb (date_pattern_match raw) then Raise (ValueError msg_invalid_date_format)
  else match strptime raw with
       | Ok dt =>
           if (year (dt_date dt) <=? year (dt_date now_year))
              && (0 <? year (dt_date dt)) && (year (dt_date dt) <? 2025)
              && negb (datetime_gt dt now_cmp)
              && (1 <=? month (dt_date dt)) && (month (dt_date dt) <=? 12)
           then Ok (mkField raw)
           else Raise (ValueError msg_invalid_date)
       | Raise _ => Raise (ValueError msg_invalid_date)
       end.
Proof.
  unfold Birthday_init. destruct (date_pattern_match raw); cbn [negb]; [|reflexivity].
  destruct (strptime raw) as [dt|e] eqn:Es; cbn [rbind].
  - rewrite Z.gtb_ltb, Z.geb_leb.
    destruct (Z.leb_spec 1 (month (dt_date dt))), (Z.leb_spec (month (dt_date dt)) 12),
             (Z.ltb_spec (year (dt_date now_year)) (year (dt_date dt))),
             (Z.leb_spec (year (dt_date dt)) (year (dt_date now_year))),
             (Z.leb_spec (year (dt_date dt)) 0), (Z.ltb_spec 0 (year (dt_date dt))),
             (Z.leb_spec 2025 (year (dt_date dt))), (Z.ltb_spec (year (dt_date dt)) 2025),
             (datetime_gt dt now_cmp); cbn; try reflexivity; lia.
  - destruct (strptime_raises _ _ Es) as [m ->]. reflexivity.
Qed.

(** What [Birthday.__init__] accepts and how it refuses. *)
Lemma Birthday_init_cases now_year now_cmp raw :
  (forall b, Birthday_init now_year now_cmp raw = Ok b ->
     b = mkField raw /\ List.length raw = 10%nat /\
     exists d, strptime raw = Ok (mkdatetime d 0 0 0 0) /\ valid_date d /\
               year d < 2025 /\ year d <= year (dt_date now_year) /\
               datetime_gt (mkdatetime d 0 0 0 0) now_cmp = false) /\
  (forall e, Birthday_init now_year now_cmp raw = Raise e ->
     (e = ValueError msg_invalid_date_format /\ date_pattern_match raw = false) \/
     (e = ValueError msg_invalid_date /\ date_pattern_match raw = true)).
Proof.
  rewrite Birthday_init_unfold.
  destruct (date_pattern_match raw) eqn:Ep; cbn [negb];
    [|split; [discriminate|intros e H; injection H as <-; now left]].
  destruct (strptime raw) as [dt|e0] eqn:Es;
    [|split; [discriminate|intros e H; injection H as <-; now right]].
  match goal with |- context [if ?c then _ else _] => destruct c eqn:Ec end;
    [|split; [discriminate|intros e H; injection H as <-; now right]].
  split; [|discriminate]. intros b H. injection H as <-.
  split; [reflexivity|].
  destruct (strptime_valid _ _ Es) as [Hv Hz].
  split.
  - pose proof (strptime_length _ _ Es).
    destruct (date_pattern_match_length _ Ep); lia.
  - exists (dt_date dt). rewrite <- Hz.
    rewrite !andb_true_iff, negb_true_iff, !Z.leb_le, !Z.ltb_lt in Ec.
    split; [reflexivity|]. split; [exact Hv|].
    split; [lia|]. split; [lia|tauto].
Qed.

(** X10: an accepted birthday is stored as the very text given; that text
    has exactly ten characters and [strptime] reads it as a real date
    whose year is below 2025 and not after the clock's year, and which is
    not after the clock.  A refused text raises either "Invalid date
    format" (the pattern does not match) or "Invalid date", and nothing
    else. *)
Theorem Birthday_init_sound now_year now_cmp raw :
  (forall b, Birthday_init now_year now_cmp raw = Ok b ->
     b = mkField raw /\ List.length raw = 10%nat /\
     exists d, strptime raw = Ok (mkdatetime d 0 0 0 0) /\ valid_date d /\
               year d < 2025 /\ year d <= year (dt_date now_year) /\
               datetime_gt (mkdatetime d 0 0 0 0) now_cmp = false) /\
  (forall e, Birthday_init now_year now_cmp raw = Raise e ->
     (e = ValueError msg_invalid_date_format /\ date_pattern_match raw = false) \/
     (e = ValueError msg_invalid_date /\ date_pattern_match raw = true)).
Proof. apply Birthday_init_cases. Qed.

Lemma Birthday_init_sound_witness :
  List.length (PyStr.of_string "20.06.1990") = 10%nat.
Proof.
  apply (proj1 (Birthday_init_sound sample_clock sample_clock
                  (PyStr.of_string "20.06.1990")) _ eq_refl).
Defined.

(** X11: every real date that is not after the clock, in a year below
    2025 and not after the clock's year, is accepted when written as
    [DD.MM.YYYY] with ASCII digits, and stored as that text. *)
Theorem Birthday_init_accepts_past_dates now_year now_cmp d :
  valid_date d -> year d < 2025 -> year d <= year (dt_date now_year) ->
  datetime_gt (mkdatetime d 0 0 0 0) now_cmp = false ->
  Birthday_init now_year now_cmp (strftime (mkdatetime d 0 0 0 0))
  = Ok (mkField (strftime (mkdatetime d 0 0 0 0))).
Proof.
  intros Hv Hy Hn Hc. rewrite Birthday_init_unfold.
  rewrite date_pattern_match_strftime by exact Hv. cbn [negb].
  rewrite strptime_of_strftime by exact Hv. cbn [dt_date]. rewrite Hc.
  destruct Hv as (Hyr & Hm & _). unfold MINYEAR in Hyr.
  replace (year d <=? year (dt_date now_year)) with true by (symmetry; apply Z.leb_le; lia).
  replace (0 <? year d) with true by (symmetry; apply Z.ltb_lt; lia).
  replace (year d <? 2025) with true by (symmetry; apply Z.ltb_lt; lia).
  replace (1 <=? month d) with true by (symmetry; apply Z.leb_le; lia).
  replace (month d <=? 12) with true by (symmetry; apply Z.leb_le; lia).
  reflexivity.
Qed.

Lemma Birthday_init_accepts_past_dates_witness :
  Birthday_init sample_clock sample_clock (PyStr.of_string "29.02.2024")
  = Ok (mkField (PyStr.of_string "29.02.2024")).
Proof.
  apply (Birthday_init_accepts_past_dates sample_clock sample_clock (mkdate 2024 2 29));
    [vm_compute; intuition discriminate | reflexivity | vm_compute; discriminate | reflexivity].
Defined.

Lemma add_birthday_unfold now_year now_cmp raw r :
  add_birthday now_year now_cmp raw r =
  match Birthday_init now_year now_cmp raw with
  | Ok b => (Ok tt, set_birthday (Some b) r)
  | Raise e => (Raise e, r)
  end.
Proof.
  unfold add_birthday, bind, lift, get, put.
  now destruct (Birthday_init now_year now_cmp raw).
Qed.

(** X12: [add_birthday] changes the record only when the text is
    accepted: then the birthday becomes that text, replacing any earlier
    one, and name and phones stay; a refused text raises InvalidFormat or
    InvalidDate and leaves the record, an earlier birthday included, as
    it was. *)
Theorem add_birthday_spec now_year now_cmp raw r :
  (forall r', add_birthday now_year now_cmp raw r = (Ok tt, r') ->
     r' = mkRecord (name r) (phones r) (Some (mkField raw))) /\
  (forall e r', add_birthday now_year now_cmp raw r = (Raise e, r') ->
     r' = r /\ (kind_of e = Some InvalidFormat \/ kind_of e = Some InvalidDate)).
Proof.
  rewrite add_birthday_unfold.
  destruct (Birthday_init_cases now_year now_cmp raw) as [Hok Hraise].
  destruct (Birthday_init now_year now_cmp raw) as [b|e0]; split.
  - intros r' H. injection H as <-. destruct (Hok b eq_refl) as [-> _]. reflexivity.
  - discriminate.
  - discriminate.
  - intros e r' H. injection H as <- <-. split; [reflexivity|].
    destruct (Hraise e0 eq_refl) as [[-> _]|[-> _]]; [now left|now right].
Qed.

Lemma add_birthday_spec_witness :
  let r := contact_born "Ann" "20.06.1990" in
  snd (add_birthday sample_clock sample_clock (PyStr.of_string "31.02.1990") r) = r.
Proof.
  cbv zeta.
  refine (proj1 (proj2 (add_birthday_spec sample_clock sample_clock
                          (PyStr.of_string "31.02.1990")
                          (contact_born "Ann" "20.06.1990"))
                   (ValueError msg_invalid_date) _ eq_refl)).
Defined.

(** ** [get_upcoming_birthdays]: edges *)

Lemma Forall2_filter_Forall {A B} (f : A -> bool) (R : A -> B -> Prop) l out :
  Forall2 R (filter f l) out ->
  Forall (fun e => exists x, In x l /\ f x = true /\ R x e) out.
Proof.
  intros H. remember (filter f l) as fl eqn:E.
  assert (Hin : forall x, In x fl -> In x l /\ f x = true)
    by (intros x Hx; subst fl; now apply filter_In in Hx).
  clear E. induction H as [|x e fl out Hxe _ IH]; constructor.
  - exists x. destruct (Hin x (or_introl eq_refl)). auto.
  - apply IH. intros y Hy. apply Hin. now right.
Qed.

Lemma weekday_range d : 0 <= weekday d <= 6.
Proof. unfold weekday. pose proof (Z.mod_pos_bound (toordinal d + 6) 7). lia. Qed.

(** What the reported dates are. *)
Lemma reported_dates_cases today self out self' :
  valid_date today ->
  get_upcoming_birthdays today self = (Ok out, self') ->
  Forall (fun e =>
            exists rd, valid_date rd /\
              strptime (upcoming_birthday e) = Ok (mkdatetime rd 0 0 0 0) /\
              0 <= weekday rd <= 4 /\
              0 <= days_until today rd <= 9) out /\
  (List.length out <= List.length (data self))%nat.
Proof.
  intros Ht H. apply (get_upcoming_birthdays_spec today self out self' Ht) in H as [_ H].
  split.
  - apply Forall2_filter_Forall in H. revert H. apply Forall_impl.
    intros e ([k r] & _ & Hsel & _ & bd & rd & Hp & Hv & Htxt & Hsat & Hsun & Hother).
    unfold selected_within in Hsel. cbn [snd] in *. rewrite Hp in Hsel.
    apply andb_true_iff in Hsel as [H0 H7]. apply Z.leb_le in H0, H7.
    exists rd. split; [exact Hv|]. split; [rewrite Htxt; now apply strptime_of_strftime|].
    unfold days_until in *.
    pose proof (weekday_range (occurrence today bd)) as Hw.
    destruct (Z.eq_dec (weekday (occurrence today bd)) 5) as [W5|W5];
      [|destruct (Z.eq_dec (weekday (occurrence today bd)) 6) as [W6|W6]].
    + destruct (Hsat W5) as [Ho Hm]. lia.
    + destruct (Hsun W6) as [Ho Hm]. lia.
    + rewrite (Hother W5 W6). lia.
  - apply Forall2_length in H. rewrite <- H. apply filter_length_le.
Qed.

(** X13: every date the query reports is a real date from Monday to
    Friday, at most nine days after [today] and not before it; its text
    is read back by [strptime] as that date; and there are at most as many
    reports as records. *)
Theorem reported_dates_are_weekdays today self out self' :
  valid_date today ->
  get_upcoming_birthdays today self = (Ok out, self') ->
  Forall (fun e =>
            exists rd, valid_date rd /\
              strptime (upcoming_birthday e) = Ok (mkdatetime rd 0 0 0 0) /\
              0 <= weekday rd <= 4 /\
              0 <= days_until today rd <= 9) out /\
  (List.length out <= List.length (data self))%nat.
Proof. apply reported_dates_cases. Qed.

Lemma reported_dates_are_weekdays_witness :
  Forall (fun e =>
            exists rd, valid_date rd /\
              strptime (upcoming_birthday e) = Ok (mkdatetime rd 0 0 0 0) /\
              0 <= weekday rd <= 4 /\
              0 <= days_until (mkdate 2025 6 18) rd <= 9)
    [mkUpcoming (PyStr.of_string "Ann") (PyStr.of_string "20.06.2025");
     mkUpcoming (PyStr.of_string "Bob") (PyStr.of_string "25.06.2025");
     mkUpcoming (PyStr.of_string "Cy") (PyStr.of_string "23.06.2025");
     mkUpcoming (PyStr.of_string "Ed") (PyStr.of_string "23.06.2025")].
Proof.
  refine (proj1 (reported_dates_are_weekdays (mkdate 2025 6 18) june_book _ june_book _ _)).
  - vm_compute. intuition discriminate.
  - vm_compute. reflexivity.
Defined.

Lemma for_each_raises {S A X} (body : A -> X -> result A) (x : X) :
  (forall acc, exists e, body acc x = Raise e) ->
  forall xs, In x xs ->
  forall acc (s : S),
    exists e, for_each xs (fun a y => lift (body a y)) acc s = (Raise e, s).
Proof.
  intros Hx. induction xs as [|y xs IH]; intros Hin acc s; [destruct Hin|].
  cbn [for_each]. unfold bind at 1, lift at 1.
  destruct (body acc y) as [acc'|e] eqn:E; [|eexists; reflexivity].
  destruct Hin as [->|Hin]; [|now apply IH].
  destruct (Hx acc) as [e He]. congruence.
Qed.

Lemma check_date_fields_leap_day y :
  is_leap y = false -> exists e, check_date_fields y 2 29 = Raise e.
Proof.
  intros Hl. unfold check_date_fields, days_in_month. rewrite Hl. cbn.
  destruct (negb _); eexists; reflexivity.
Qed.

Lemma is_leap_next y : is_leap y = true -> is_leap (y + 1) = false.
Proof.
  intros H. apply is_leap_spec in H as [H4 _].
  destruct (is_leap (y + 1)) eqn:E; [|reflexivity].
  apply is_leap_spec in E as [E4 _]. exfalso.
  Z.div_mod_to_equations. lia.
Qed.

(** X14: when some record's birthday is a 29 February, the query raises
    instead of returning whenever the year of [today] is not a leap year,
    and also in a leap year once 29 February has passed. *)
Theorem leap_day_birthday_raises today self k r bd :
  In (k, r) (data self) ->
  parsed_birthday r = Some bd -> month bd = 2 -> day bd = 29 ->
  is_leap (year today) = false
  \/ date_lt (mkdate (year today) 2 29) today = true ->
  exists e, get_upcoming_birthdays today self = (Raise e, self).
Proof.
  intros Hin Hp Hm Hd Hyear. unfold get_upcoming_birthdays.
  unfold bind at 1, lift at 1.
  destruct (date_add_days today 7) as [nw|e]; [|eexists; reflexivity].
  unfold bind at 1, get at 1.
  apply (for_each_raises (upcoming_body today nw) (k, r)); [|exact Hin].
  intros acc. unfold upcoming_body, parsed_birthday in *.
  destruct (birthday r) as [b|]; [|discriminate].
  destruct (strptime (value b)) as [dt|] eqn:Es; [|discriminate].
  injection Hp as <-. cbn [rbind]. unfold replace_year. rewrite Hm, Hd.
  destruct (is_leap (year today)) eqn:El.
  - destruct Hyear as [?|Hlt]; [discriminate|].
    destruct (check_date_fields (year today) 2 29) as [d0|e0] eqn:E0; cbn [rbind];
      [|eexists; reflexivity].
    apply check_date_fields_ok in E0 as [-> _].
    unfold date_of. cbn [dt_date month day]. rewrite Hlt.
    destruct (check_date_fields_leap_day _ (is_leap_next _ El)) as [e1 ->].
    cbn [rbind]. eexists; reflexivity.
  - destruct (check_date_fields_leap_day _ El) as [e0 ->]. cbn [rbind].
    eexists; reflexivity.
Qed.

Lemma leap_day_birthday_raises_witness :
  exists e, get_upcoming_birthdays (mkdate 2024 3 1) leap_book = (Raise e, leap_book).
Proof.
  apply (leap_day_birthday_raises (mkdate 2024 3 1) leap_book
           (PyStr.of_string "Lea") (contact_born "Lea" "29.02.2000")
           (mkdate 2000 2 29)).
  - vm_compute. right. left. reflexivity.
  - reflexivity.
  - reflexivity.
  - reflexivity.
  - right. reflexivity.
Defined.

Lemma for_each_no_birthday today nw (s : AddressBook) : forall items acc,
  (forall k r, In (k, r) items -> birthday r = None) ->
  for_each items
    (fun upcoming_birthdays item =>
       lift (upcoming_body today nw upcoming_birthdays item)) acc s
  = (Ok acc, s).
Proof.
  induction items as [|[k r] items IH]; intros acc Hnone; [reflexivity|].
  cbn [for_each]. unfold bind at 1, lift at 1. unfold upcoming_body.
  rewrite (Hnone k r (or_introl eq_refl)). apply IH.
  intros k' r' Hin. apply (Hnone k' r'). now right.
Qed.

(** X15: on a book in which no record has a birthday (the empty book
    among them) the query returns the empty list, for every [today] up to
    24 December 9999; in the last week of the year 9999 it raises an
    [OverflowError], because [today + 7 days] is computed first. *)
Theorem no_birthdays_no_upcoming today self :
  valid_date today ->
  (forall k r, In (k, r) (data self) -> birthday r = None) ->
  get_upcoming_birthdays today self
  = (if date_le today (mkdate 9999 12 24)
     then Ok [] else Raise (OverflowError msg_date_overflow), self).
Proof.
  intros Ht Hnone. unfold get_upcoming_birthdays.
  unfold bind at 1, lift at 1. unfold date_add_days.
  rewrite date_le_toordinal by (exact Ht || (vm_compute; intuition discriminate)).
  change (toordinal (mkdate 9999 12 24)) with 3652052.
  pose proof (toordinal_range today Ht) as Hr. unfold MAXORDINAL in *.
  destruct (Z.leb_spec (toordinal today) 3652052) as [Hle|Hgt].
  - replace ((0 <? toordinal today + 7) && (toordinal today + 7 <=? 3652059)) with true
      by (symmetry; rewrite andb_true_iff, Z.ltb_lt, Z.leb_le; lia).
    unfold bind at 1, get at 1. now apply for_each_no_birthday.
  - replace ((0 <? toordinal today + 7) && (toordinal today + 7 <=? 3652059)) with false
      by (symmetry; rewrite andb_false_iff, Z.leb_gt; lia).
    reflexivity.
Qed.

Lemma no_birthdays_no_upcoming_witness :
  get_upcoming_birthdays (mkdate 2025 6 18) empty_book = (Ok [], empty_book).
Proof.
  apply (no_birthdays_no_upcoming (mkdate 2025 6 18) empty_book).
  - vm_compute. intuition discriminate.
  - intros k r [].
Defined.

(** ** The command handlers *)

Lemma dict_set_same k r d : dict_get k d = Some r -> dict_set k r d = d.
Proof.
  induction d as [|[k0 v0] d IH]; cbn; [discriminate|].
  destruct (PyStr.str_eqb k0 k); [intros E; now injection E as ->|].
  intros E. now rewrite IH.
Qed.

Lemma on_book_find k s :
  on_book (find k) s = (Done (dict_get k (data (session_book s))), s).
Proof. destruct s as [book out]. reflexivity. Qed.

Lemma add_phone_cases phone r :
  (PyStr.isdigit phone = true /\ PyStr.len phone = 10 /\
   add_phone phone r = (Ok tt, set_phones (phones r ++ [mkField phone]) r))
  \/ (~ (PyStr.isdigit phone = true /\ PyStr.len phone = 10) /\
      exists m, add_phone phone r = (Raise (ValueError m), r)
                /\ kind_of_message m = Some InvalidFormat).
Proof.
  rewrite add_phone_unfold.
  destruct (PyStr.isdigit phone) eqn:Ed;
    [destruct (Z.eq_dec (PyStr.len phone) 10) as [El|El]|].
  - left. rewrite (proj2 (Phone_init_ok_iff phone) (conj Ed El)). auto.
  - right. split; [tauto|].
    destruct (Phone_init_raises phone) as (m & -> & Hk); [tauto|]. eauto.
  - right. split; [intros [? _]; discriminate|].
    destruct (Phone_init_raises phone) as (m & -> & Hk);
      [rewrite Ed; intros [? _]; discriminate|]. eauto.
Qed.

Lemma edit_phone_raises old new r e r' :
  edit_phone old new r = (Raise e, r') -> exists m, e = ValueError m.
Proof.
  rewrite edit_phone_unfold.
  repeat match goal with
         | |- context [match ?x with _ => _ end] => destruct x
         end; intros E; inversion E; eexists; reflexivity.
Qed.

(** X16: [add_contact] is not all-or-nothing.  For a name that is not in
    the book and a non-empty phone text that is not ten digits, the
    handler first stores a new record without phones under the trimmed
    name and prints "Contact added."; then [add_phone] raises, and the
    decorator returns the error text: the new, empty contact stays in
    the book. *)
Theorem add_contact_refused_phone_leaves_contact name phone rest s :
  dict_get name (data (session_book s)) = None ->
  phone <> [] ->
  ~ (PyStr.isdigit phone = true /\ PyStr.len phone = 10) ->
  exists m,
    add_contact (name :: phone :: rest) s
    = (Done (returned_error (from_core (ValueError m))),
       mkSession (snd (add_record (Record_init name) (session_book s)))
                 (printed s ++ [PyStr.of_string "Contact added."]))
    /\ kind_of_message m = Some InvalidFormat
    /\ dict_get (PyStr.strip name)
         (data (snd (add_record (Record_init name) (session_book s))))
       = Some (mkRecord (mkField (PyStr.strip name)) [] None).
Proof.
  intros Hnone Hne Hbad.
  destruct (add_phone_cases phone (Record_init name)) as [(Hd & Hl & _)|(_ & m & Hm & Hk)];
    [tauto|].
  exists m. split; [|split; [exact Hk|]].
  - unfold add_contact, input_error, Handlers.add_contact.
    replace (Z.of_nat (List.length (name :: phone :: rest)) <? 2) with false
      by (symmetry; apply Z.ltb_ge; cbn [List.length]; lia).
    unfold hbind at 1. rewrite on_book_find, Hnone.
    destruct s as [[d] out]. cbn [session_book data printed] in *.
    destruct phone as [|c p]; [congruence|].
    unfold hbind, on_book, show_message, print, hret, on_record.
    rewrite add_record_unfold. cbn beta iota. cbn [session_book data printed snd fst].
    cbn [Record_init record_name Name_init value].
    rewrite dict_get_set_same.
    change (mkRecord (mkField (PyStr.strip name)) [] None) with (Record_init name).
    rewrite Hm. rewrite dict_set_set. reflexivity.
  - rewrite add_record_unfold. cbn [snd data Record_init record_name Name_init value].
    apply dict_get_set_same.
Qed.

Lemma add_contact_refused_phone_leaves_contact_witness :
  exists m,
    add_contact [PyStr.of_string "Zed"; PyStr.of_string "12345"] (mkSession empty_book [])
    = (Done (returned_error (from_core (ValueError m))),
       mkSession (mkBook [(PyStr.of_string "Zed", Record_init (PyStr.of_string "Zed"))])
                 [PyStr.of_string "Contact added."]).
Proof.
  destruct (add_contact_refused_phone_leaves_contact
              (PyStr.of_string "Zed") (PyStr.of_string "12345") []
              (mkSession empty_book [])) as (m & E & _).
  - reflexivity.
  - discriminate.
  - intros [_ E]. vm_compute in E. discriminate.
  - exists m. exact E.
Defined.

(** X17: with a valid phone number [add_contact] ends normally.  For a
    name that is a key, the phone is appended to that record's phones,
    the record stays in its place, and "Contact updated." is printed;
    for a name that is not a key, a record is stored under the trimmed
    name with exactly that phone, and "Contact added." and "Contact
    updated." are printed. *)
Theorem add_contact_adds_phone name phone rest s :
  PyStr.isdigit phone = true -> PyStr.len phone = 10 ->
  add_contact (name :: phone :: rest) s
  = match dict_get name (data (session_book s)) with
    | Some r =>
        (Done returned_None,
         mkSession
           (mkBook (dict_set name
                      (mkRecord (record_name r) (phones r ++ [mkField phone])
                                (birthday r))
                      (data (session_book s))))
           (printed s ++ [PyStr.of_string "Contact updated."]))
    | None =>
        (Done returned_None,
         mkSession
           (mkBook (dict_set (PyStr.strip name)
                      (mkRecord (mkField (PyStr.strip name)) [mkField phone] None)
                      (data (session_book s))))
           (printed s ++ [PyStr.of_string "Contact added.";
                          PyStr.of_string "Contact updated."]))
    end.
Proof.
  intros Hd Hl.
  assert (Hne : phone <> []) by (intros ->; discriminate).
  unfold add_contact, input_error, Handlers.add_contact.
  replace (Z.of_nat (List.length (name :: phone :: rest)) <? 2) with false
    by (symmetry; apply Z.ltb_ge; cbn [List.length]; lia).
  unfold hbind at 1. rewrite on_book_find.
  destruct s as [[d] out]. cbn [session_book data printed] in *.
  destruct (dict_get name d) as [r|] eqn:Eg.
  - destruct (add_phone_cases phone r) as [(_ & _ & Ha)|(Hbad & _)]; [|tauto].
    destruct phone as [|c p]; [congruence|].
    unfold hbind, hret, on_record, show_message, print. cbn beta iota.
    cbn [session_book data printed]. rewrite Eg, Ha. reflexivity.
  - destruct (add_phone_cases phone (Record_init name))
      as [(_ & _ & Ha)|(Hbad & _)]; [|tauto].
    destruct phone as [|c p]; [congruence|].
    unfold hbind, on_book, show_message, print, hret, on_record.
    rewrite add_record_unfold. cbn beta iota. cbn [session_book data printed snd fst].
    replace (value (record_name (Record_init name))) with (PyStr.strip name)
      by reflexivity.
    rewrite dict_get_set_same, Ha.
    rewrite dict_set_set. cbn [snd printed session_book].
    rewrite <- app_assoc. reflexivity.
Qed.

Lemma add_contact_adds_phone_witness :
  add_contact [PyStr.of_string "Zed"; PyStr.of_string "0501234567"] (mkSession empty_book [])
  = (Done returned_None,
     mkSession
       (mkBook [(PyStr.of_string "Zed",
                 mkRecord (mkField (PyStr.of_string "Zed"))
                          [mkField (PyStr.of_string "0501234567")] None)])
       [PyStr.of_string "Contact added."; PyStr.of_string "Contact updated."]).
Proof.
  apply (add_contact_adds_phone (PyStr.of_string "Zed") (PyStr.of_string "0501234567") []
           (mkSession empty_book [])); reflexivity.
Defined.

(** X18: the decorated [add_contact] never raises, whatever the
    arguments and the session; with fewer than two arguments it returns
    the error text and changes nothing. *)
Theorem add_contact_never_raises args s :
  exists res s',
    add_contact args s = (Done res, s') /\
    ((List.length args < 2)%nat ->
     res = returned_error (HandlerValueError msg_provide_name_and_phone) /\ s' = s).
Proof.
  unfold add_contact, input_error, Handlers.add_contact.
  destruct args as [|name [|phone rest]];
    [do 2 eexists; split; [reflexivity|auto]..|].
  replace (Z.of_nat (List.length (name :: phone :: rest)) <? 2) with false
    by (symmetry; apply Z.ltb_ge; cbn [List.length]; lia).
  assert (Hlen : ~ (List.length (name :: phone :: rest) < 2)%nat) by (cbn; lia).
  unfold hbind at 1. rewrite on_book_find.
  destruct s as [[d] out]. cbn [session_book data printed].
  destruct (dict_get name d) as [r|] eqn:Eg.
  - destruct phone as [|c p]; [do 2 eexists; split; [reflexivity|tauto]|].
    unfold hbind, hret, on_record, show_message, print. cbn beta iota.
    cbn [session_book data printed]. rewrite Eg.
    destruct (add_phone_cases (c :: p) r) as [(_ & _ & ->)|(_ & m & -> & _)];
      do 2 eexists; (split; [reflexivity|tauto]).
  - destruct phone as [|c p]; [do 2 eexists; split; [reflexivity|tauto]|].
    unfold hbind, on_book, show_message, print, hret, on_record.
    rewrite add_record_unfold. cbn beta iota. cbn [session_book data printed snd fst].
    replace (value (record_name (Record_init name))) with (PyStr.strip name)
      by reflexivity.
    rewrite dict_get_set_same.
    destruct (add_phone_cases (c :: p) (Record_init name))
      as [(_ & _ & ->)|(_ & m & -> & _)];
      do 2 eexists; (split; [reflexivity|tauto]).
Qed.

Lemma add_contact_never_raises_witness :
  add_contact [PyStr.of_string "Zed"] (mkSession june_book [])
  = (Done (returned_error (HandlerValueError msg_provide_name_and_phone)),
     mkSession june_book []).
Proof.
  destruct (add_contact_never_raises [PyStr.of_string "Zed"] (mkSession june_book []))
    as (res & s' & E & Hshort).
  destruct Hshort as [-> ->]; [cbn; lia|]. exact E.
Defined.

(** The handlers for a name that is not a key. *)
Lemma missing_contact_cases name s :
  dict_get name (data (session_book s)) = None ->
  let s' := mkSession (session_book s) (printed s ++ [contact_not_found name]) in
  (forall old new,
     change_contact [name; old; new] s = (Threw (AttributeError "edit_phone"), s')) /\
  (forall rest,
     show_phone (name :: rest) s = (Threw (AttributeError "phones"), s')) /\
  (forall now_year now_cmp b,
     add_birthday_handler now_year now_cmp [name; b] s
     = (Threw (AttributeError "add_birthday"), s')) /\
  (forall rest,
     show_birthday (name :: rest) s = (Done returned_None, s')).
Proof.
  intros Hnone. cbv zeta.
  unfold change_contact, show_phone, add_birthday_handler, show_birthday, input_error,
    Handlers.change_contact, Handlers.show_phone, Handlers.add_birthday,
    Handlers.show_birthday.
  repeat split; intros; cbn [List.length Z.of_nat Pos.of_succ_nat Z.ltb Z.compare
                             Pos.compare Pos.compare_cont Pos.succ];
    unfold hbind at 1; rewrite on_book_find, Hnone; reflexivity.
Qed.

(** X19: for a name that is not in the book, [change_contact],
    [show_phone] and the [add_birthday] handler print "Contact ... not
    found." and then call a method on [None]: the [AttributeError] is not
    caught by the decorator and reaches the caller.  [show_birthday]
    returns after the same message.  The book is unchanged in all four. *)
Theorem missing_contact_raises name s :
  dict_get name (data (session_book s)) = None ->
  let s' := mkSession (session_book s) (printed s ++ [contact_not_found name]) in
  (forall old new,
     change_contact [name; old; new] s = (Threw (AttributeError "edit_phone"), s')) /\
  (forall rest,
     show_phone (name :: rest) s = (Threw (AttributeError "phones"), s')) /\
  (forall now_year now_cmp b,
     add_birthday_handler now_year now_cmp [name; b] s
     = (Threw (AttributeError "add_birthday"), s')) /\
  (forall rest,
     show_birthday (name :: rest) s = (Done returned_None, s')).
Proof. apply missing_contact_cases. Qed.

Lemma missing_contact_raises_witness :
  change_contact [PyStr.of_string "Zed"; PyStr.of_string "0501234567";
                  PyStr.of_string "0679876543"] (mkSession empty_book [])
  = (Threw (AttributeError "edit_phone"),
     mkSession empty_book [contact_not_found (PyStr.of_string "Zed")]).
Proof.
  exact (proj1 (missing_contact_raises (PyStr.of_string "Zed")
                  (mkSession empty_book []) eq_refl)
           (PyStr.of_string "0501234567") (PyStr.of_string "0679876543")).
Defined.

(** [change_contact] for a name that is a key. *)
Lemma change_contact_found name old new r s :
  dict_get name (data (session_book s)) = Some r ->
  change_contact [name; old; new] s
  = match edit_phone old new r with
    | (Ok _, r') =>
        (Done returned_None,
         mkSession (mkBook (dict_set name r' (data (session_book s))))
                   (printed s ++ [PyStr.of_string "Contact changed"]))
    | (Raise e, _) => (Done (returned_error (from_core e)), s)
    end.
Proof.
  intros Hsome.
  unfold change_contact, input_error, Handlers.change_contact.
  unfold hbind at 1. rewrite on_book_find, Hsome.
  destruct s as [[d] out]. cbn [session_book data printed] in *.
  unfold hbind, hret, on_record, show_message, print.
  cbn [option_map session_book data printed]. rewrite Hsome.
  destruct (edit_phone old new r) as [[[]|e] r'] eqn:Ee; [reflexivity|].
  destruct (edit_phone_raises _ _ _ _ _ Ee) as [m ->].
  rewrite edit_phone_unfold in Ee.
  assert (r' = r) as ->.
  { revert Ee.
    repeat match goal with
           | |- context [match ?x with _ => _ end] => destruct x
           end; intros E; inversion E; reflexivity. }
  now rewrite (dict_set_same _ _ _ Hsome).
Qed.

(** X20: for a name that is in the book, [change_contact] does what
    [edit_phone] does on that record: when [edit_phone] ends normally the
    changed record takes the place of the old one and "Contact changed"
    is printed; when it raises, the decorator returns the error text,
    nothing is printed and the book is unchanged. *)
Theorem change_contact_existing name old new r s :
  dict_get name (data (session_book s)) = Some r ->
  change_contact [name; old; new] s
  = match edit_phone old new r with
    | (Ok _, r') =>
        (Done returned_None,
         mkSession (mkBook (dict_set name r' (data (session_book s))))
                   (printed s ++ [PyStr.of_string "Contact changed"]))
    | (Raise e, _) => (Done (returned_error (from_core e)), s)
    end.
Proof. apply change_contact_found. Qed.

Lemma change_contact_existing_witness :
  let r := mkRecord (mkField (PyStr.of_string "Zed"))
                    [mkField (PyStr.of_string "0501234567")] None in
  let s := mkSession (mkBook [(PyStr.of_string "Zed", r)]) [] in
  change_contact [PyStr.of_string "Zed"; PyStr.of_string "0501234567";
                  PyStr.of_string "0679876543"] s
  = (Done returned_None,
     mkSession (mkBook [(PyStr.of_string "Zed",
                         mkRecord (mkField (PyStr.of_string "Zed"))
                                  [mkField (PyStr.of_string "0679876543")] None)])
               [PyStr.of_string "Contact changed"]).
Proof.
  cbv zeta.
  apply (change_contact_existing (PyStr.of_string "Zed") (PyStr.of_string "0501234567")
           (PyStr.of_string "0679876543")
           (mkRecord (mkField (PyStr.of_string "Zed"))
                     [mkField (PyStr.of_string "0501234567")] None)).
  reflexivity.
Defined.

Lemma add_birthday_raises now_year now_cmp b r e r' :
  add_birthday now_year now_cmp b r = (Raise e, r') ->
  r' = r /\ exists m, e = ValueError m.
Proof.
  rewrite add_birthday_unfold.
  destruct (Birthday_init_cases now_year now_cmp b) as [_ Hraise].
  destruct (Birthday_init now_year now_cmp b) as [x|e0]; [discriminate|].
  intros E. injection E as <- <-. split; [reflexivity|].
  destruct (Hraise e0 eq_refl) as [[-> _]|[-> _]]; eexists; reflexivity.
Qed.

(** [add_birthday] (the handler) for a name that is a key. *)
Lemma add_birthday_handler_found now_year now_cmp name b r s :
  dict_get name (data (session_book s)) = Some r ->
  add_birthday_handler now_year now_cmp [name; b] s
  = match add_birthday now_year now_cmp b r with
    | (Ok _, r') =>
        (Done returned_None,
         mkSession (mkBook (dict_set name r' (data (session_book s))))
                   (printed s ++ [PyStr.of_string "Birthday added."]))
    | (Raise e, _) => (Done (returned_error (from_core e)), s)
    end.
Proof.
  intros Hsome.
  unfold add_birthday_handler, input_error, Handlers.add_birthday.
  cbn [List.length Z.of_nat Pos.of_succ_nat Z.ltb Z.compare Pos.compare
       Pos.compare_cont Pos.succ].
  unfold hbind at 1. rewrite on_book_find, Hsome.
  destruct s as [[d] out]. cbn [session_book data printed] in *.
  unfold hbind, hret, on_record, show_message, print.
  cbn [option_map session_book data printed]. rewrite Hsome.
  destruct (add_birthday now_year now_cmp b r) as [[[]|e] r'] eqn:Ee;
    [reflexivity|].
  destruct (add_birthday_raises _ _ _ _ _ _ Ee) as [-> [m ->]].
  now rewrite (dict_set_same _ _ _ Hsome).
Qed.

(** X21: for a name that is in the book, the [add_birthday] handler does
    what [Record.add_birthday] does on that record: an accepted text
    becomes the record's birthday, in the record's place in the book, and
    "Birthday added." is printed; a refused text gives the returned error
    text, prints nothing and leaves the book unchanged. *)
Theorem add_birthday_handler_existing now_year now_cmp name b r s :
  dict_get name (data (session_book s)) = Some r ->
  add_birthday_handler now_year now_cmp [name; b] s
  = match add_birthday now_year now_cmp b r with
    | (Ok _, r') =>
        (Done returned_None,
         mkSession (mkBook (dict_set name r' (data (session_book s))))
                   (printed s ++ [PyStr.of_string "Birthday added."]))
    | (Raise e, _) => (Done (returned_error (from_core e)), s)
    end.
Proof. apply add_birthday_handler_found. Qed.

Lemma add_birthday_handler_existing_witness :
  let r := Record_init (PyStr.of_string "Zed") in
  add_birthday_handler sample_clock sample_clock
    [PyStr.of_string "Zed"; PyStr.of_string "20.06.1990"]
    (mkSession (mkBook [(PyStr.of_string "Zed", r)]) [])
  = (Done returned_None,
     mkSession (mkBook [(PyStr.of_string "Zed", contact_born "Zed" "20.06.1990")])
               [PyStr.of_string "Birthday added."]).
Proof.
  cbv zeta.
  exact (add_birthday_handler_existing sample_clock sample_clock
           (PyStr.of_string "Zed") (PyStr.of_string "20.06.1990")
           (Record_init (PyStr.of_string "Zed"))
           (mkSession (mkBook [(PyStr.of_string "Zed",
                                Record_init (PyStr.of_string "Zed"))]) [])
           eq_refl).
Defined.

(** [show_phone] for a name that is a key. *)
Lemma show_phone_found name rest r s :
  dict_get name (data (session_book s)) = Some r ->
  Handlers.show_phone (name :: rest) s
  = (Done tt,
     mkSession (session_book s)
       (printed s ++ [PyStr.of_string "Phones for " ++ name ++ PyStr.of_string ": "
                      ++ join (PyStr.of_string ", ") (map value (phones r))])).
Proof.
  intros Hsome. destruct s as [[d] out]. cbn [session_book data printed] in *.
  unfold Handlers.show_phone.
  unfold hbind at 1. rewrite on_book_find. cbn [session_book data]. rewrite Hsome.
  unfold hbind, hret, on_record, show_message, print.
  cbn [option_map session_book data printed]. rewrite Hsome.
  now rewrite (dict_set_same _ _ _ Hsome).
Qed.

(** X22: [show_phone] and [show_birthday] never change the book; for a
    name that is in the book [show_phone] prints its phones separated by
    ", " after "Phones for <name>: ". *)
Theorem show_handlers_read_only args s :
  session_book (snd (show_phone args s)) = session_book s /\
  session_book (snd (show_birthday args s)) = session_book s /\
  (forall name rest r,
     args = name :: rest ->
     dict_get name (data (session_book s)) = Some r ->
     show_phone args s
     = (Done returned_None,
        mkSession (session_book s)
          (printed s ++ [PyStr.of_string "Phones for " ++ name ++ PyStr.of_string ": "
                         ++ join (PyStr.of_string ", ") (map value (phones r))]))).
Proof.
  unfold show_phone, show_birthday, input_error, Handlers.show_phone,
    Handlers.show_birthday.
  destruct s as [[d] out].
  pose proof (fun name rest r => show_phone_found name rest r (mkSession (mkBook d) out))
    as Hfound. cbn [session_book data printed] in Hfound.
  unfold Handlers.show_phone in Hfound.
  split; [|split].
  - destruct args as [|name rest]; [reflexivity|].
    destruct (dict_get name d) as [r|] eqn:Eg.
    + now rewrite (Hfound name rest r Eg).
    + unfold hbind at 1. rewrite on_book_find. cbn [session_book data]. now rewrite Eg.
  - destruct args as [|name rest]; [reflexivity|].
    unfold hbind at 1. rewrite on_book_find. cbn [session_book data].
    destruct (dict_get name d) as [r|]; [destruct (birthday r)|]; reflexivity.
  - intros name rest r -> Hsome. cbn [session_book data printed] in *.
    now rewrite (Hfound name rest r Hsome).
Qed.

Lemma show_handlers_read_only_witness :
  let r := mkRecord (mkField (PyStr.of_string "Zed"))
                    [mkField (PyStr.of_string "0501234567");
                     mkField (PyStr.of_string "0679876543")] None in
  let s := mkSession (mkBook [(PyStr.of_string "Zed", r)]) [] in
  show_phone [PyStr.of_string "Zed"] s
  = (Done returned_None,
     mkSession (mkBook [(PyStr.of_string "Zed", r)])
               [PyStr.of_string "Phones for Zed: 0501234567, 0679876543"]).
Proof.
  cbv zeta.
  exact (proj2 (proj2 (show_handlers_read_only [PyStr.of_string "Zed"]
           (mkSession (mkBook [(PyStr.of_string "Zed",
              mkRecord (mkField (PyStr.of_string "Zed"))
                       [mkField (PyStr.of_string "0501234567");
                        mkField (PyStr.of_string "0679876543")] None)]) [])))
           (PyStr.of_string "Zed") []
           (mkRecord (mkField (PyStr.of_string "Zed"))
                     [mkField (PyStr.of_string "0501234567");
                      mkField (PyStr.of_string "0679876543")] None)
           eq_refl eq_refl).
Defined.




(** X24: the decorated handlers let an exception through only for a
    contact that is not in the book: if [change_contact], [show_phone],
    the [add_birthday] handler or [show_birthday] raises, then the first
    argument is a name that is not a key and the exception is the
    [AttributeError] of a method call on [None]. *)
Theorem handlers_raise_only_for_missing_contact args s e s' :
  change_contact args s = (Threw e, s')
  \/ show_phone args s = (Threw e, s')
  \/ (exists now_year now_cmp, add_birthday_handler now_year now_cmp args s = (Threw e, s'))
  \/ show_birthday args s = (Threw e, s') ->
  exists name rest,
    args = name :: rest /\ dict_get name (data (session_book s)) = None /\
    exists attribute, e = AttributeError attribute.
Proof.
  intros [Hc|[Hp|[(ny & nc & Hb)|Hs]]].
  - destruct args as [|name [|old [|new [|x rest]]]]; try discriminate.
    exists name, [old; new]. split; [reflexivity|].
    destruct (dict_get name (data (session_book s))) as [r|] eqn:Eg.
    + rewrite (change_contact_found _ _ _ _ _ Eg) in Hc.
      destruct (edit_phone old new r) as [[[]|?] ?]; discriminate.
    + destruct (missing_contact_cases name s Eg) as (H1 & _).
      rewrite H1 in Hc. injection Hc as <- _. eauto.
  - destruct args as [|name rest]; [discriminate|].
    exists name, rest. split; [reflexivity|].
    destruct (dict_get name (data (session_book s))) as [r|] eqn:Eg.
    + unfold show_phone, input_error in Hp.
      rewrite (show_phone_found _ _ _ _ Eg) in Hp. discriminate.
    + destruct (missing_contact_cases name s Eg) as (_ & H2 & _).
      rewrite H2 in Hp. injection Hp as <- _. eauto.
  - destruct args as [|name [|b [|x rest]]]; try discriminate.
    2: { exfalso. unfold add_birthday_handler, input_error, Handlers.add_birthday in Hb.
         replace (Z.of_nat (List.length (name :: b :: x :: rest)) <? 2) with false in Hb
           by (symmetry; apply Z.ltb_ge; cbn [List.length]; lia).
         discriminate. }
    exists name, [b]. split; [reflexivity|].
    destruct (dict_get name (data (session_book s))) as [r|] eqn:Eg.
    + rewrite (add_birthday_handler_found _ _ _ _ _ _ Eg) in Hb.
      destruct (add_birthday ny nc b r) as [[[]|?] ?]; discriminate.
    + destruct (missing_contact_cases name s Eg) as (_ & _ & H3 & _).
      rewrite H3 in Hb. injection Hb as <- _. eauto.
  - exfalso. destruct args as [|name rest]; [discriminate|].
    unfold show_birthday, input_error, Handlers.show_birthday in Hs.
    unfold hbind at 1 in Hs. rewrite on_book_find in Hs.
    destruct (dict_get name (data (session_book s))) as [r|];
      [destruct (birthday r)|]; discriminate.
Qed.

Lemma handlers_raise_only_for_missing_contact_witness :
  exists name rest,
    [PyStr.of_string "Zed"] = name :: rest /\
    dict_get name (data june_book) = None /\
    exists attribute, AttributeError "phones" = AttributeError attribute.
Proof.
  apply (handlers_raise_only_for_missing_contact [PyStr.of_string "Zed"]
           (mkSession june_book []) (AttributeError "phones")
           (mkSession june_book [PyStr.of_string "Contact Zed not found."])).
  right. left. reflexivity.
Defined.

(** ** Digits outside ASCII *)

(** Ten Ethiopic digits are a phone number for [str.isdigit], although
    they are not decimal digits. *)
Example Phone_init_ethiopic_digits :
  let raw := [0x1369; 0x136A; 0x136B; 0x136C; 0x136D; 0x136E; 0x136F; 0x1370;
              0x1371; 0x1369]%N in
  Phone_init raw = Ok (mkField raw) /\ forallb PyStr.isdecimal raw = false.
Proof. split; reflexivity. Qed.

(** A day written "1" and MATHEMATICAL BOLD DIGIT TWO is the twelfth: the
    text is accepted, and on 10 June 2025 the query reports it.  After
    "3" the same digit matches no alternative of [%d], and the text is
    refused as "Invalid date". *)
Example Birthday_init_mathematical_digit :
  let day12 := [0x31; 0x1D7D0]%N ++ PyStr.of_string ".06.1990" in
  let day32 := [0x33; 0x1D7D0]%N ++ PyStr.of_string ".06.1990" in
  Birthday_init sample_clock sample_clock day12 = Ok (mkField day12) /\
  strptime day12 = Ok (mkdatetime (mkdate 1990 6 12) 0 0 0 0) /\
  Birthday_init sample_clock sample_clock day32 = Raise (ValueError msg_invalid_date) /\
  fst (get_upcoming_birthdays (mkdate 2025 6 10)
         (mkBook [(PyStr.of_string "Ann",
                   mkRecord (mkField (PyStr.of_string "Ann")) []
                            (Some (mkField day12)))]))
  = Ok [mkUpcoming (PyStr.of_string "Ann") (PyStr.of_string "12.06.2025")].
Proof. cbv zeta. repeat split; vm_compute; reflexivity. Qed.
